(** * chatify: the chain orchestrator of [chatify/chains.py]

    A shallow embedding of the class [CreateLLMChain] and proofs of its
    behaviour.  The class is a thin layer over collaborators that live
    outside the file (the model provider, the cache adapter, the prompt
    template engine and the chain engine); they appear here as the
    fields of one interface, [Framework], so every theorem holds for
    whatever these collaborators return or raise; what a collaborator
    answers is a function of the arguments it is called with.  Python
    dictionaries are finite maps with string keys, exceptions are values
    of [exn], and a method of the class is a function from the object's
    fields to an outcome: what the method returned or raised, the fields
    afterwards, and the calls it made to the collaborators.  An
    exception keeps the assignments made before it. *)

From stdpp Require Import gmap strings list fin_maps.
From Stdlib Require Import ZArith.

#[local] Set Warnings "-register-all".
#[local] Open Scope string_scope.
#[local] Open Scope list_scope.

(** ** Python values *)

(** The values a configuration loaded from a file can hold. *)
Inductive pyval : Type :=
| PNone
| PBool (b : bool)
| PInt (z : Z)
| PStr (s : string)
| PList (l : list pyval)
| PDict (d : gmap string pyval).

(** Python's truth test, as used by [if self.cache:]. *)
Definition truthy (v : pyval) : bool :=
  match v with
  | PNone => false
  | PBool b => b
  | PInt z => negb (Z.eqb z 0)
  | PStr s => negb (String.eqb s "")
  | PList l => match l with [] => false | _ :: _ => true end
  | PDict d => negb (bool_decide (d = ∅))
  end.

(** Lists and dictionaries cannot be used as dictionary keys. *)
Definition hashable (v : pyval) : bool :=
  match v with
  | PList _ | PDict _ => false
  | _ => true
  end.

(** ** Exceptions and results *)

Inductive exn : Type :=
| KeyError (key : pyval)
| TypeError (msg : string)
| OtherError (cls : string) (msg : string).

Inductive Result (A : Type) : Type :=
| Ok (a : A)
| Raise (e : exn).

Arguments Ok {A} a.
Arguments Raise {A} e.

Definition is_ok {A} (r : Result A) : bool :=
  match r with Ok _ => true | Raise _ => false end.

Definition is_KeyError (e : exn) : bool :=
  match e with KeyError _ => true | _ => false end.

Definition res_bind {A B} (r : Result A) (k : A → Result B) : Result B :=
  match r with
  | Ok a => k a
  | Raise e => Raise e
  end.

Notation "'let?' x := r 'in' k" := (res_bind r (fun x => k))
  (at level 10, x name, r at level 100, k at level 200).

(** [obj[key]] for a string literal [key]: a dictionary is looked up, a
    missing key raises [KeyError]; every other value raises [TypeError]. *)
Definition getitem (obj : pyval) (key : string) : Result pyval :=
  match obj with
  | PDict d =>
      match d !! key with
      | Some v => Ok v
      | None => Raise (KeyError (PStr key))
      end
  | PStr _ => Raise (TypeError "string indices must be integers")
  | PList _ => Raise (TypeError "list indices must be integers or slices, not str")
  | PNone | PBool _ | PInt _ => Raise (TypeError "object is not subscriptable")
  end.

(** ** The chain classes and the factory table *)

(** The two chain classes imported from the chain engine. *)
Inductive ChainClass : Type := LLMMathChain | LLMChain.

(** [table[key]] for a table keyed by strings and a key that is any
    value: an unhashable key raises [TypeError], any other key that is
    not in the table raises [KeyError]. *)
Definition table_getitem {A} (table : gmap string A) (key : pyval) : Result A :=
  match key with
  | PStr k =>
      match table !! k with
      | Some c => Ok c
      | None => Raise (KeyError key)
      end
  | PList _ | PDict _ => Raise (TypeError "unhashable type")
  | PNone | PBool _ | PInt _ => Raise (KeyError key)
  end.

(** ** The collaborators *)

(** What the class uses of the code around it.  [ModelsFactory] and
    [LLMCacher] are the classes of [llm_models.py] and [cache.py];
    [PromptTemplate], [instantiate], [format] and the two calls belong
    to the template and chain engine.  Every call may raise.  A
    [ModelHandle] is a model object, never Python's [None]. *)
Class Framework : Type := {
  ModelHandle : Type;
  Prompt : Type;
  Chain : Type;
  CacheObj : Type;
  ModelsFactory : Type;
  LLMCacher : Type;
  (** [ModelsFactory()] *)
  ModelsFactory_new : Result ModelsFactory;
  (** [factory.get_model(model_config)] *)
  get_model : ModelsFactory → pyval → Result ModelHandle;
  (** [LLMCacher(config)] *)
  LLMCacher_new : pyval → Result LLMCacher;
  (** [cacher.cache_llm(llm)] *)
  cache_llm : LLMCacher → ModelHandle → Result ModelHandle;
  (** [cacher.llm_cache] *)
  llm_cache : LLMCacher → CacheObj;
  (** [cache_obj.flush()] *)
  flush : CacheObj → Result unit;
  (** [PromptTemplate(template=..., input_variables=...)] *)
  PromptTemplate : pyval → pyval → Result Prompt;
  (** [cls(llm=..., prompt=...)] for a chain class [cls]; the [llm]
      argument is the field [self.llm_model] as it stands. *)
  instantiate : ChainClass → option ModelHandle → Prompt → Result Chain;
  (** [chain.prompt] and [chain.llm] *)
  chain_prompt : Chain → Prompt;
  chain_llm : Chain → ModelHandle;
  (** [prompt.format] called with keyword arguments *)
  format : Prompt → list (string * pyval) → Result pyval;
  (** [llm(inputs, cache_obj=...)] *)
  llm_call : ModelHandle → pyval → CacheObj → Result pyval;
  (** [chain(inputs)] *)
  chain_call : Chain → pyval → Result pyval
}.

Section Orchestrator.

Context `{F : Framework}.

(** ** The object *)

(** The fields of a [CreateLLMChain] object; [llm_model = None] is
    Python's [None]. *)
Record CreateLLMChain : Type := {
  chain_config : pyval;
  llm_model : option ModelHandle;
  cache : pyval;
  llm_models_factory : ModelsFactory;
  cacher : LLMCacher;
  chain_factory : gmap string ChainClass
}.

(** The calls made to the collaborators.  A [get_model] call is logged
    with what it returned. *)
Inductive event : Type :=
| EvGetModel (model_config : pyval) (r : Result ModelHandle)
| EvCacheLLM (llm : ModelHandle)
| EvPromptTemplate (template input_variables : pyval)
| EvInstantiate (cls : ChainClass) (llm : option ModelHandle) (prompt : Prompt)
| EvFormat (prompt : Prompt) (kwargs : list (string * pyval))
| EvLLMCall (llm : ModelHandle) (inputs : pyval) (cache_obj : CacheObj)
| EvFlush (cache_obj : CacheObj)
| EvChainCall (chain : Chain) (inputs : pyval).

(** The object [s] with its field [llm_model] set to [m]. *)
Definition with_llm_model (s : CreateLLMChain) (m : ModelHandle) : CreateLLMChain :=
  {| chain_config := chain_config s;
     llm_model := Some m;
     cache := cache s;
     llm_models_factory := llm_models_factory s;
     cacher := cacher s;
     chain_factory := chain_factory s |}.

(** What a method call leaves behind: what it returned or raised, the
    object afterwards, and the calls it made, in order. *)
Record Outcome (A : Type) : Type := {
  result : Result A;
  after : CreateLLMChain;
  log : list event
}.

Arguments result {A} o.
Arguments after {A} o.
Arguments log {A} o.

(** ** The method monad: state that survives an exception *)

Definition M (A : Type) : Type := CreateLLMChain → Outcome A.

Definition ret {A} (a : A) : M A :=
  fun s => {| result := Ok a; after := s; log := [] |}.

Definition bind {A B} (m : M A) (k : A → M B) : M B :=
  fun s =>
    match m s with
    | {| result := Ok a; after := s'; log := t |} =>
        match k a s' with
        | {| result := r; after := s''; log := t' |} =>
            {| result := r; after := s''; log := t ++ t' |}
        end
    | {| result := Raise e; after := s'; log := t |} =>
        {| result := Raise e; after := s'; log := t |}
    end.

Definition lift {A} (r : Result A) : M A :=
  fun s => {| result := r; after := s; log := [] |}.

(** [try: body except KeyError: handler] *)
Definition try_except_KeyError {A} (body handler : M A) : M A :=
  fun s =>
    match body s with
    | {| result := Ok a; after := s'; log := t |} =>
        {| result := Ok a; after := s'; log := t |}
    | {| result := Raise e; after := s'; log := t |} =>
        if is_KeyError e then
          match handler s' with
          | {| result := r; after := s''; log := t' |} =>
              {| result := r; after := s''; log := t ++ t' |}
          end
        else {| result := Raise e; after := s'; log := t |}
    end.

Definition get_self : M CreateLLMChain :=
  fun s => {| result := Ok s; after := s; log := [] |}.

Definition emit (e : event) : M unit :=
  fun s => {| result := Ok tt; after := s; log := [e] |}.

(** [self.llm_model = m] *)
Definition set_llm_model (m : ModelHandle) : M unit :=
  fun s => {| result := Ok tt; after := with_llm_model s m; log := [] |}.

Notation "'let!' x := m 'in' k" := (bind m (fun x => k))
  (at level 10, x name, m at level 100, k at level 200).

(** ** Calls to the collaborators, each logged when it is made *)

Definition call_get_model (mf : ModelsFactory) (model_config : pyval) : M ModelHandle :=
  let! _ := emit (EvGetModel model_config (get_model mf model_config)) in
  lift (get_model mf model_config).

Definition call_cache_llm (c : LLMCacher) (llm : ModelHandle) : M ModelHandle :=
  let! _ := emit (EvCacheLLM llm) in
  lift (cache_llm c llm).

Definition call_PromptTemplate (template input_variables : pyval) : M Prompt :=
  let! _ := emit (EvPromptTemplate template input_variables) in
  lift (PromptTemplate template input_variables).

Definition call_instantiate (cls : ChainClass) (llm : option ModelHandle)
    (prompt : Prompt) : M Chain :=
  let! _ := emit (EvInstantiate cls llm prompt) in
  lift (instantiate cls llm prompt).

Definition call_format (prompt : Prompt) (kwargs : list (string * pyval)) : M pyval :=
  let! _ := emit (EvFormat prompt kwargs) in
  lift (format prompt kwargs).

Definition call_llm (llm : ModelHandle) (inputs : pyval) (cache_obj : CacheObj) : M pyval :=
  let! _ := emit (EvLLMCall llm inputs cache_obj) in
  lift (llm_call llm inputs cache_obj).

Definition call_flush (cache_obj : CacheObj) : M unit :=
  let! _ := emit (EvFlush cache_obj) in
  lift (flush cache_obj).

Definition call_chain (chain : Chain) (inputs : pyval) : M pyval :=
  let! _ := emit (EvChainCall chain inputs) in
  lift (chain_call chain inputs).

(** ** The methods of [CreateLLMChain] *)

(** The dictionary literal of line 39. *)
Definition factory_table : gmap string ChainClass :=
  {[ "math" := LLMMathChain; "default" := LLMChain ]}.

(** [_setup_chain_factory] (line 39): [self.chain_factory = {...}]. *)
Definition _setup_chain_factory (s : CreateLLMChain) : CreateLLMChain :=
  {| chain_config := chain_config s;
     llm_model := llm_model s;
     cache := cache s;
     llm_models_factory := llm_models_factory s;
     cacher := cacher s;
     chain_factory := factory_table |}.

(** [__init__] (lines 24-30).  The two configuration keys are read
    before the collaborators are built; the object exists only when no
    step raised. *)
Definition __init__ (config : pyval) : Result CreateLLMChain :=
  let? chain_config_ := getitem config "chain_config" in
  let? cache_config := getitem config "cache_config" in
  let? cache_ := getitem cache_config "cache" in
  let? factory := ModelsFactory_new in
  let? cacher_ := LLMCacher_new config in
  Ok (_setup_chain_factory
        {| chain_config := chain_config_;
           llm_model := None;
           cache := cache_;
           llm_models_factory := factory;
           cacher := cacher_;
           chain_factory := ∅ |}).

(** [create_prompt] (lines 52-55). *)
Definition create_prompt (prompt : pyval) : M Prompt :=
  let! template := lift (getitem prompt "content") in
  let! input_variables := lift (getitem prompt "input_variables") in
  call_PromptTemplate template input_variables.

(** The first block of [create_chain] (lines 69-73): build the model
    when the field is still [None], store it, and when the cache flag is
    true store its wrapped form over it. *)
Definition load_llm_model (model_config : pyval) : M unit :=
  let! s := get_self in
  match llm_model s with
  | None =>
      let! m := call_get_model (llm_models_factory s) model_config in
      let! _ := set_llm_model m in
      if truthy (cache s) then
        let! m' := call_cache_llm (cacher s) m in
        set_llm_model m'
      else ret tt
  | Some _ => ret tt
  end.

(** The second block of [create_chain] (lines 75-78). *)
Definition read_chain_type : M pyval :=
  try_except_KeyError
    (let! s := get_self in lift (getitem (chain_config s) "chain_type"))
    (ret (PStr "default")).

(** The last block of [create_chain] (lines 75-83): read the chain
    type, index the table, then evaluate the arguments and call the
    class.  The table is indexed before the arguments are evaluated. *)
Definition build_chain (prompt_template : pyval) : M Chain :=
  let! chain_type := read_chain_type in
  let! s := get_self in
  let! cls := lift (table_getitem (chain_factory s) chain_type) in
  let! s := get_self in
  let! prompt := create_prompt prompt_template in
  call_instantiate cls (llm_model s) prompt.

(** [create_chain] (lines 69-83): the model block, then the rest. *)
Definition create_chain (model_config prompt_template : pyval) : M Chain :=
  let! _ := load_llm_model model_config in
  build_chain prompt_template.

(** [execute] (lines 99-106); the extra positional and keyword
    arguments of the method are not used by its body. *)
Definition execute (chain : Chain) (inputs : pyval) : M pyval :=
  let! s := get_self in
  if truthy (cache s) then
    let! inputs' := call_format (chain_prompt chain) [("text", inputs)] in
    let! s := get_self in
    let! output := call_llm (chain_llm chain) inputs' (llm_cache (cacher s)) in
    let! s := get_self in
    let! _ := call_flush (llm_cache (cacher s)) in
    ret output
  else
    let! result := call_chain chain inputs in
    lift (getitem result "text").

(** ** Observations on a log *)

Definition is_built (e : event) : bool :=
  match e with EvGetModel _ (Ok _) => true | _ => false end.

Definition is_flush (e : event) : bool :=
  match e with EvFlush _ => true | _ => false end.

(** How many model handles a log shows being constructed. *)
Definition built (t : list event) : nat := length (List.filter is_built t).

(** An event of a call made while the handle [h] is stored: no model
    is requested or wrapped, and a chain class is handed [h]. *)
Definition reuses (h : ModelHandle) (e : event) : Prop :=
  match e with
  | EvGetModel _ _ | EvCacheLLM _ => False
  | EvInstantiate _ llm _ => llm = Some h
  | _ => True
  end.

(** The chain classes a log shows being called, in order. *)
Fixpoint classes_used (t : list event) : list ChainClass :=
  match t with
  | [] => []
  | EvInstantiate cls _ _ :: rest => cls :: classes_used rest
  | _ :: rest => classes_used rest
  end.

(** How many times a log shows the cache being flushed. *)
Definition flushes (t : list event) : nat := length (List.filter is_flush t).

(** A caller that issues [create_chain] calls one after the other on
    the same object and carries on after a failed one: the object at the
    end and all the calls made. *)
Fixpoint run_create_chain (calls : list (pyval * pyval)) (s : CreateLLMChain)
    : CreateLLMChain * list event :=
  match calls with
  | [] => (s, [])
  | (model_config, prompt_template) :: rest =>
      let o := create_chain model_config prompt_template s in
      let r := run_create_chain rest (after o) in
      (fst r, (log o ++ snd r)%list)
  end.

(** ** Sessions: the public methods called in any order *)

(** One call of a public method on the object. *)
Inductive call : Type :=
| CallCreatePrompt (prompt : pyval)
| CallCreateChain (model_config prompt_template : pyval)
| CallExecute (chain : Chain) (inputs : pyval).

(** The object after one call and the calls to the collaborators the
    call made; what the method returned or raised is left to the
    caller. *)
Definition run_call (c : call) (s : CreateLLMChain) : CreateLLMChain * list event :=
  match c with
  | CallCreatePrompt prompt =>
      (after (create_prompt prompt s), log (create_prompt prompt s))
  | CallCreateChain model_config prompt_template =>
      (after (create_chain model_config prompt_template s),
       log (create_chain model_config prompt_template s))
  | CallExecute chain inputs =>
      (after (execute chain inputs s), log (execute chain inputs s))
  end.

(** A caller that issues calls one after the other on the same object
    and carries on after a failed one. *)
Fixpoint run_session (calls : list call) (s : CreateLLMChain)
    : CreateLLMChain * list event :=
  match calls with
  | [] => (s, [])
  | c :: rest =>
      let r := run_session rest (fst (run_call c s)) in
      (fst r, snd (run_call c s) ++ snd r)
  end.

Definition is_execute (c : call) : bool :=
  match c with CallExecute _ _ => true | _ => false end.

(** How many [execute] calls a session holds. *)
Definition executes (calls : list call) : nat := length (List.filter is_execute calls).

(** The calls that build things: models, wrappers, prompts and chains. *)
Definition is_construction (e : event) : bool :=
  match e with
  | EvGetModel _ _ | EvCacheLLM _ | EvPromptTemplate _ _ | EvInstantiate _ _ _ => true
  | EvFormat _ _ | EvLLMCall _ _ _ | EvFlush _ | EvChainCall _ _ => false
  end.

(** The calls that run a chain: formatting, the model, the chain, the
    flush. *)
Definition is_execution (e : event) : bool :=
  match e with
  | EvFormat _ _ | EvLLMCall _ _ _ | EvFlush _ | EvChainCall _ _ => true
  | EvGetModel _ _ | EvCacheLLM _ | EvPromptTemplate _ _ | EvInstantiate _ _ _ => false
  end.

(** The calls that involve the cacher or its cache object. *)
Definition touches_cache (e : event) : bool :=
  match e with
  | EvCacheLLM _ | EvLLMCall _ _ _ | EvFlush _ => true
  | _ => false
  end.

Definition is_chain_call (e : event) : bool :=
  match e with EvChainCall _ _ => true | _ => false end.

End Orchestrator.

Arguments result {F A} o.
Arguments after {F A} o.
Arguments log {F A} o.

Notation "'let!' x := m 'in' k" := (bind m (fun x => k))
  (at level 10, x name, m at level 100, k at level 200).

(** ** A test double of the collaborators

    Small stand-ins on which the methods can be run: the provider reads
    the key [model] of its configuration, a cacher is a flag that says
    whether it works and wraps when it does, a prompt is the pair it was
    built from, [format] lists a string template and the values it was
    given, the model echoes its input and a chain answers with its input
    under the key [text]. *)
Module Demo.

Inductive handle : Type :=
| Model (model_config : pyval)
| Cached (inner : handle).

Record chain : Type := {
  cls : ChainClass;
  llm : handle;
  prompt : pyval * pyval
}.

Definition framework : Framework :=
  {| ModelHandle := handle;
     Prompt := pyval * pyval;
     Chain := chain;
     CacheObj := unit;
     ModelsFactory := unit;
     LLMCacher := bool;
     ModelsFactory_new := Ok tt;
     get_model := fun _ model_config =>
       let? _ := getitem model_config "model" in Ok (Model model_config);
     LLMCacher_new := fun _ => Ok true;
     cache_llm := fun works m =>
       if works then Ok (Cached m)
       else Raise (OtherError "RuntimeError" "cache unavailable");
     llm_cache := fun _ => tt;
     flush := fun _ => Ok tt;
     PromptTemplate := fun template input_variables => Ok (template, input_variables);
     instantiate := fun c m p =>
       match m with
       | Some h => Ok {| cls := c; llm := h; prompt := p |}
       | None => Raise (OtherError "ValidationError" "llm")
       end;
     chain_prompt := prompt;
     chain_llm := llm;
     format := fun p kwargs =>
       match fst p with
       | PStr _ => Ok (PList (fst p :: map snd kwargs))
       | _ => Raise (TypeError "template must be a string")
       end;
     llm_call := fun _ inputs _ => Ok inputs;
     chain_call := fun _ inputs => Ok (PDict {[ "text" := inputs ]}) |}.

(** A configuration with caching switched off and no [chain_type]. *)
Definition config_plain : pyval :=
  PDict {[ "chain_config" := PDict ∅;
           "cache_config" := PDict {[ "cache" := PBool false ]} ]}.

(** An object as [__init__] leaves it, with the given chain
    configuration and cache flag. *)
Definition object (chain_config_ cache_ : pyval) : @CreateLLMChain framework :=
  @Build_CreateLLMChain framework chain_config_ None cache_ tt true factory_table.

(** The same object with a cacher that does not work. *)
Definition object_broken_cacher (chain_config_ cache_ : pyval)
    : @CreateLLMChain framework :=
  @Build_CreateLLMChain framework chain_config_ None cache_ tt false factory_table.

Definition model_a : pyval := PDict {[ "model" := PStr "a" ]}.
Definition model_b : pyval := PDict {[ "model" := PStr "b" ]}.

Definition prompt_q : pyval :=
  PDict {[ "content" := PStr "Q: {q}";
           "input_variables" := PList [PStr "q"] ]}.

(** The template that [prompt_q] describes. *)
Definition template_q : pyval * pyval := (PStr "Q: {q}", PList [PStr "q"]).

(** A chain around a wrapped model. *)
Definition chain_q : chain :=
  {| cls := LLMChain; llm := Cached (Model model_a); prompt := template_q |}.

(** A chain whose prompt has no string template. *)
Definition chain_bad : chain :=
  {| cls := LLMChain; llm := Cached (Model model_a); prompt := (PNone, PList []) |}.

(** Chain configurations: none, [math], and a type that no class has. *)
Definition no_type : pyval := PDict ∅.
Definition math_type : pyval := PDict {[ "chain_type" := PStr "math" ]}.
Definition sql_type : pyval := PDict {[ "chain_type" := PStr "sql" ]}.

(** A model configuration the provider rejects, a prompt
    specification without [content], and a session that mixes the three
    public methods. *)
Definition model_none : pyval := PDict ∅.
Definition prompt_empty : pyval := PDict ∅.

Definition session_mixed : list (@call framework) :=
  [@CallCreateChain framework model_a prompt_q;
   @CallExecute framework chain_q (PStr "2+2");
   @CallCreateChain framework model_b prompt_q;
   @CallCreatePrompt framework prompt_q;
   @CallExecute framework chain_q (PStr "3+3")].

End Demo.

(** ** A test double whose calls can fail

    A model handle says whether the model answers, a cache object says
    whether it can be flushed, and a chain carries its model handle and
    what calling it gives. *)
Module Faulty.

Definition framework : Framework :=
  {| ModelHandle := bool;
     Prompt := unit;
     Chain := bool * Result pyval;
     CacheObj := bool;
     ModelsFactory := unit;
     LLMCacher := bool;
     ModelsFactory_new := Ok tt;
     get_model := fun _ _ => Ok true;
     LLMCacher_new := fun _ => Ok true;
     cache_llm := fun _ m => Ok m;
     llm_cache := fun c => c;
     flush := fun c =>
       if c then Ok tt else Raise (OtherError "OSError" "cache not writable");
     PromptTemplate := fun _ _ => Ok tt;
     instantiate := fun _ m _ =>
       match m with
       | Some h => Ok (h, Ok (PDict {[ "text" := PStr "ok" ]}))
       | None => Raise (OtherError "ValidationError" "llm")
       end;
     chain_prompt := fun _ => tt;
     chain_llm := fst;
     format := fun _ kwargs => Ok (PList (map snd kwargs));
     llm_call := fun h inputs _ =>
       if h then Ok inputs else Raise (OtherError "RuntimeError" "model unavailable");
     chain_call := fun c _ => snd c |}.

(** An object with the given cache flag whose cache object can be
    flushed or not. *)
Definition object (cache_ : pyval) (flushable : bool) : @CreateLLMChain framework :=
  @Build_CreateLLMChain framework (PDict ∅) None cache_ tt flushable factory_table.

(** Chains: one whose model does not answer, one whose model answers,
    one that raises when called, one that answers under the key
    [answer] only, and one that answers with a plain string. *)
Definition chain_model_down : bool * Result pyval := (false, Ok PNone).
Definition chain_model_up : bool * Result pyval := (true, Ok PNone).
Definition chain_raises : bool * Result pyval :=
  (true, Raise (OtherError "ValueError" "bad input")).
Definition chain_answer_key : bool * Result pyval :=
  (true, Ok (PDict {[ "answer" := PStr "4" ]})).
Definition chain_plain : bool * Result pyval := (true, Ok (PStr "4")).

End Faulty.

(** * Properties *)

Section Properties.

Context `{F : Framework}.

Implicit Types (s : CreateLLMChain) (h m : ModelHandle) (t : list event).

#[local] Arguments getitem : simpl never.
#[local] Arguments table_getitem : simpl never.

(** Unfolds the monad and the logged calls down to records. *)
Ltac run_method :=
  unfold create_chain, build_chain, load_llm_model, read_chain_type,
    create_prompt, execute,
    call_get_model, call_cache_llm, call_PromptTemplate, call_instantiate,
    call_format, call_llm, call_flush, call_chain,
    try_except_KeyError, bind, ret, lift, emit, get_self, set_llm_model;
  simpl.

(** ** The model block *)

Lemma load_reuse model_config s h :
  llm_model s = Some h →
  load_llm_model model_config s = {| result := Ok tt; after := s; log := [] |}.
Proof. intros Hm. run_method. rewrite Hm. reflexivity. Qed.

Lemma load_provider_error model_config s e :
  llm_model s = None →
  get_model (llm_models_factory s) model_config = Raise e →
  load_llm_model model_config s =
    {| result := Raise e; after := s;
       log := [EvGetModel model_config (Raise e)] |}.
Proof. intros Hm Hg. run_method. rewrite Hm. simpl. rewrite Hg. reflexivity. Qed.

Lemma load_plain model_config s m :
  llm_model s = None →
  get_model (llm_models_factory s) model_config = Ok m →
  truthy (cache s) = false →
  load_llm_model model_config s =
    {| result := Ok tt; after := with_llm_model s m;
       log := [EvGetModel model_config (Ok m)] |}.
Proof.
  intros Hm Hg Hc. run_method. rewrite Hm. simpl. rewrite Hg. simpl.
  rewrite Hc. reflexivity.
Qed.

Lemma load_wrapped model_config s m m' :
  llm_model s = None →
  get_model (llm_models_factory s) model_config = Ok m →
  truthy (cache s) = true →
  cache_llm (cacher s) m = Ok m' →
  load_llm_model model_config s =
    {| result := Ok tt; after := with_llm_model s m';
       log := [EvGetModel model_config (Ok m); EvCacheLLM m] |}.
Proof.
  intros Hm Hg Hc Hw. run_method. rewrite Hm. simpl. rewrite Hg. simpl.
  rewrite Hc. simpl. rewrite Hw. reflexivity.
Qed.

Lemma load_wrap_error model_config s m e :
  llm_model s = None →
  get_model (llm_models_factory s) model_config = Ok m →
  truthy (cache s) = true →
  cache_llm (cacher s) m = Raise e →
  load_llm_model model_config s =
    {| result := Raise e; after := with_llm_model s m;
       log := [EvGetModel model_config (Ok m); EvCacheLLM m] |}.
Proof.
  intros Hm Hg Hc Hw. run_method. rewrite Hm. simpl. rewrite Hg. simpl.
  rewrite Hc. simpl. rewrite Hw. reflexivity.
Qed.

(** ** What follows the model block *)

Lemma create_chain_split model_config prompt_template :
  create_chain model_config prompt_template =
  bind (load_llm_model model_config) (fun _ => build_chain prompt_template).
Proof. reflexivity. Qed.

(** Splits on what the dictionary reads and the constructors return. *)
Ltac split_cases :=
  repeat (simpl; match goal with
          | |- context [match getitem ?a ?b with _ => _ end] =>
              destruct (getitem a b) eqn:?
          | |- context [match table_getitem ?a ?b with _ => _ end] =>
              destruct (table_getitem a b) eqn:?
          | |- context [match PromptTemplate ?a ?b with _ => _ end] =>
              destruct (PromptTemplate a b) eqn:?
          | |- context [if is_KeyError ?e then _ else _] =>
              destruct (is_KeyError e) eqn:?
          end); simpl.

Lemma create_prompt_after prompt s : after (create_prompt prompt s) = s.
Proof. run_method. split_cases; reflexivity. Qed.

Lemma read_chain_type_after s :
  after (read_chain_type s) = s ∧ log (read_chain_type s) = [].
Proof. run_method. split_cases; auto. Qed.

Lemma build_chain_after prompt_template s :
  after (build_chain prompt_template s) = s.
Proof. unfold build_chain. run_method. split_cases; reflexivity. Qed.

Lemma build_chain_built prompt_template s :
  built (log (build_chain prompt_template s)) = 0.
Proof. unfold build_chain. run_method. split_cases; reflexivity. Qed.

Lemma build_chain_reuses prompt_template s h :
  llm_model s = Some h →
  Forall (reuses h) (log (build_chain prompt_template s)).
Proof.
  intros Hm. unfold build_chain. run_method.
  split_cases; repeat constructor; simpl; auto.
Qed.

Lemma create_chain_after_load model_config prompt_template s :
  result (load_llm_model model_config s) = Ok tt →
  create_chain model_config prompt_template s =
    {| result := result (build_chain prompt_template (after (load_llm_model model_config s)));
       after := after (load_llm_model model_config s);
       log := log (load_llm_model model_config s) ++
              log (build_chain prompt_template (after (load_llm_model model_config s))) |}.
Proof.
  intros Hok. rewrite create_chain_split. unfold bind.
  destruct (load_llm_model model_config s) as [r s1 t1]. simpl in *. subst r.
  pose proof (build_chain_after prompt_template s1) as Ha.
  destruct (build_chain prompt_template s1) as [r2 s2 t2]. simpl in *.
  subst s2. reflexivity.
Qed.

Lemma create_chain_load_error model_config prompt_template s e :
  result (load_llm_model model_config s) = Raise e →
  create_chain model_config prompt_template s =
    {| result := Raise e;
       after := after (load_llm_model model_config s);
       log := log (load_llm_model model_config s) |}.
Proof.
  intros Hr. rewrite create_chain_split. unfold bind.
  destruct (load_llm_model model_config s) as [r s1 t1]. simpl in *. subst r.
  reflexivity.
Qed.

(** While a handle is stored, [create_chain] is its second part alone. *)
Lemma create_chain_reuse model_config prompt_template s h :
  llm_model s = Some h →
  create_chain model_config prompt_template s = build_chain prompt_template s.
Proof.
  intros Hm. rewrite create_chain_after_load; rewrite (load_reuse _ _ _ Hm); [|reflexivity].
  simpl. pose proof (build_chain_after prompt_template s) as Ha.
  destruct (build_chain prompt_template s); simpl in *. subst. reflexivity.
Qed.

(** The model block, case by case. *)
Lemma load_summary model_config s :
  match llm_model s with
  | Some _ => load_llm_model model_config s = {| result := Ok tt; after := s; log := [] |}
  | None =>
      match get_model (llm_models_factory s) model_config with
      | Raise e =>
          load_llm_model model_config s =
            {| result := Raise e; after := s; log := [EvGetModel model_config (Raise e)] |}
      | Ok m =>
          if truthy (cache s) then
            match cache_llm (cacher s) m with
            | Ok m' =>
                load_llm_model model_config s =
                  {| result := Ok tt; after := with_llm_model s m';
                     log := [EvGetModel model_config (Ok m); EvCacheLLM m] |}
            | Raise e =>
                load_llm_model model_config s =
                  {| result := Raise e; after := with_llm_model s m;
                     log := [EvGetModel model_config (Ok m); EvCacheLLM m] |}
            end
          else
            load_llm_model model_config s =
              {| result := Ok tt; after := with_llm_model s m;
                 log := [EvGetModel model_config (Ok m)] |}
      end
  end.
Proof.
  destruct (llm_model s) as [h|] eqn:Hm; [exact (load_reuse _ _ _ Hm)|].
  destruct (get_model (llm_models_factory s) model_config) as [m|e] eqn:Hg;
    [|exact (load_provider_error _ _ _ Hm Hg)].
  destruct (truthy (cache s)) eqn:Hc; [|exact (load_plain _ _ _ Hm Hg Hc)].
  destruct (cache_llm (cacher s) m) as [m'|e] eqn:Hw.
  - exact (load_wrapped _ _ _ _ Hm Hg Hc Hw).
  - exact (load_wrap_error _ _ _ _ Hm Hg Hc Hw).
Qed.

(** A model block that raises nothing leaves a handle in the field. *)
Lemma load_ok_stored model_config s :
  result (load_llm_model model_config s) = Ok tt →
  is_Some (llm_model (after (load_llm_model model_config s))).
Proof.
  pose proof (load_summary model_config s) as H.
  destruct (llm_model s) eqn:Hm.
  - rewrite H. simpl. rewrite Hm. eauto.
  - destruct (get_model _ _); [|rewrite H; discriminate].
    destruct (truthy _); [destruct (cache_llm _ _)|]; rewrite H; simpl;
      eauto; discriminate.
Qed.

(** One call builds at most one handle, none while one is stored, and
    leaves the field empty only when it built none. *)
Lemma create_chain_built model_config prompt_template s :
  (built (log (create_chain model_config prompt_template s)) ≤ 1)%nat ∧
  (llm_model (after (create_chain model_config prompt_template s)) = None →
   built (log (create_chain model_config prompt_template s)) = 0).
Proof.
  pose proof (load_summary model_config s) as H.
  assert (Hb : ∀ t s1, built (t ++ log (build_chain prompt_template s1)) = built t).
  { intros t s1. unfold built. rewrite List.filter_app, length_app.
    fold (built (log (build_chain prompt_template s1))).
    rewrite build_chain_built. lia. }
  destruct (llm_model s) as [h|] eqn:Hm.
  - rewrite create_chain_after_load; rewrite H; [|reflexivity]. simpl.
    rewrite build_chain_built. split; [lia|reflexivity].
  - destruct (get_model _ _) as [m|e].
    + destruct (truthy _); [destruct (cache_llm _ _) as [m'|e]|].
      * rewrite create_chain_after_load; rewrite H; [|reflexivity].
        cbn [result after log]. rewrite Hb. split; [reflexivity|discriminate].
      * rewrite (create_chain_load_error _ _ _ e); rewrite H; [|reflexivity].
        split; [reflexivity|discriminate].
      * rewrite create_chain_after_load; rewrite H; [|reflexivity].
        cbn [result after log]. rewrite Hb. split; [reflexivity|discriminate].
    + rewrite (create_chain_load_error _ _ _ e); rewrite H; [|reflexivity].
      split; [unfold built; simpl; lia|reflexivity].
Qed.

Lemma run_create_chain_reuse calls s h :
  llm_model s = Some h →
  llm_model (fst (run_create_chain calls s)) = Some h ∧
  built (snd (run_create_chain calls s)) = 0 ∧
  Forall (reuses h) (snd (run_create_chain calls s)).
Proof.
  revert s. induction calls as [|[model_config prompt_template] rest IH];
    intros s Hm; simpl.
  - repeat split; auto.
  - rewrite (create_chain_reuse _ _ _ _ Hm), build_chain_after.
    destruct (IH s Hm) as (Hf & Hb & Hr). repeat split; [exact Hf| |].
    + unfold built in *. rewrite List.filter_app, length_app.
      fold (built (log (build_chain prompt_template s))).
      rewrite build_chain_built, Hb. reflexivity.
    + apply Forall_app. split; [exact (build_chain_reuses _ _ _ Hm)|exact Hr].
Qed.

Lemma run_create_chain_built calls s :
  (built (snd (run_create_chain calls s)) ≤ 1)%nat.
Proof.
  revert s. induction calls as [|[model_config prompt_template] rest IH];
    intros s; simpl; [unfold built; simpl; lia|].
  destruct (create_chain_built model_config prompt_template s) as [Hle Hnone].
  unfold built in *. rewrite List.filter_app, length_app.
  destruct (llm_model (after (create_chain model_config prompt_template s)))
    as [h|] eqn:Hm.
  - destruct (run_create_chain_reuse rest _ _ Hm) as (_ & Hb & _).
    unfold built in Hb. rewrite Hb. lia.
  - rewrite (Hnone eq_refl). apply IH.
Qed.

(** ** C1 *)

(** C1.  The model handle is constructed at most once over any sequence
    of [create_chain] calls on one object.  Once a handle is stored, the
    calls that follow leave it in the field, request and wrap no model,
    hand that handle to the chain class, and do the same whatever model
    configuration they are given.  A first call on an empty field whose
    provider returns a handle stores it when the cache flag is false,
    and stores its wrapped form when the flag is true and the wrapping
    returns. *)
Theorem model_handle_built_once :
  (∀ calls s, (built (snd (run_create_chain calls s)) ≤ 1)%nat) ∧
  (∀ calls s h,
     llm_model s = Some h →
     llm_model (fst (run_create_chain calls s)) = Some h ∧
     built (snd (run_create_chain calls s)) = 0 ∧
     Forall (reuses h) (snd (run_create_chain calls s))) ∧
  (∀ model_config model_config' prompt_template s h,
     llm_model s = Some h →
     create_chain model_config prompt_template s =
     create_chain model_config' prompt_template s) ∧
  (∀ model_config prompt_template s m,
     llm_model s = None →
     get_model (llm_models_factory s) model_config = Ok m →
     truthy (cache s) = false →
     llm_model (after (create_chain model_config prompt_template s)) = Some m ∧
     built (log (create_chain model_config prompt_template s)) = 1) ∧
  (∀ model_config prompt_template s m m',
     llm_model s = None →
     get_model (llm_models_factory s) model_config = Ok m →
     truthy (cache s) = true →
     cache_llm (cacher s) m = Ok m' →
     llm_model (after (create_chain model_config prompt_template s)) = Some m' ∧
     built (log (create_chain model_config prompt_template s)) = 1).
Proof.
  split; [exact run_create_chain_built|].
  split; [exact run_create_chain_reuse|].
  split.
  { intros mc mc' p s h Hm.
    rewrite (create_chain_reuse mc _ _ _ Hm), (create_chain_reuse mc' _ _ _ Hm).
    reflexivity. }
  assert (Hb : ∀ t p s1, built (t ++ log (build_chain p s1)) = built t).
  { intros t p s1. unfold built. rewrite List.filter_app, length_app.
    fold (built (log (build_chain p s1))). rewrite build_chain_built. lia. }
  split.
  - intros mc p s m Hm Hg Hc.
    rewrite create_chain_after_load; rewrite (load_plain _ _ _ Hm Hg Hc);
      [|reflexivity].
    cbn [result after log]. rewrite Hb. split; reflexivity.
  - intros mc p s m m' Hm Hg Hc Hw.
    rewrite create_chain_after_load; rewrite (load_wrapped _ _ _ _ Hm Hg Hc Hw);
      [|reflexivity].
    cbn [result after log]. rewrite Hb. split; reflexivity.
Qed.

(** ** The chain type and the factory table *)

(** The model block writes the field [llm_model] and no other. *)
Lemma load_frame model_config s :
  chain_config (after (load_llm_model model_config s)) = chain_config s ∧
  cache (after (load_llm_model model_config s)) = cache s ∧
  llm_models_factory (after (load_llm_model model_config s)) = llm_models_factory s ∧
  cacher (after (load_llm_model model_config s)) = cacher s ∧
  chain_factory (after (load_llm_model model_config s)) = chain_factory s.
Proof.
  pose proof (load_summary model_config s) as H.
  destruct (llm_model s); [rewrite H; auto|].
  destruct (get_model _ _); [|rewrite H; auto].
  destruct (truthy _); [destruct (cache_llm _ _)|]; rewrite H; auto.
Qed.

Lemma read_chain_type_present s fields v :
  chain_config s = PDict fields →
  fields !! "chain_type" = Some v →
  read_chain_type s = {| result := Ok v; after := s; log := [] |}.
Proof.
  intros Hc Hv. run_method. unfold getitem. rewrite Hc, Hv. reflexivity.
Qed.

Lemma read_chain_type_missing s fields :
  chain_config s = PDict fields →
  fields !! "chain_type" = None →
  read_chain_type s = {| result := Ok (PStr "default"); after := s; log := [] |}.
Proof.
  intros Hc Hv. run_method. unfold getitem. rewrite Hc, Hv. reflexivity.
Qed.

Lemma factory_table_default :
  table_getitem factory_table (PStr "default") = Ok LLMChain.
Proof. reflexivity. Qed.

Lemma factory_table_math :
  table_getitem factory_table (PStr "math") = Ok LLMMathChain.
Proof. reflexivity. Qed.

Lemma factory_table_other v :
  v ≠ PStr "math" → v ≠ PStr "default" →
  table_getitem factory_table v =
    Raise (if hashable v then KeyError v else TypeError "unhashable type").
Proof.
  intros Hmath Hdef. destruct v as [| | |k| |]; try reflexivity.
  unfold table_getitem, factory_table.
  rewrite lookup_insert_ne by congruence.
  rewrite lookup_singleton_ne by congruence. reflexivity.
Qed.

Lemma build_chain_selected prompt_template s v cls fields template input_variables pt :
  read_chain_type s = {| result := Ok v; after := s; log := [] |} →
  table_getitem (chain_factory s) v = Ok cls →
  prompt_template = PDict fields →
  fields !! "content" = Some template →
  fields !! "input_variables" = Some input_variables →
  PromptTemplate template input_variables = Ok pt →
  build_chain prompt_template s =
    {| result := instantiate cls (llm_model s) pt;
       after := s;
       log := [EvPromptTemplate template input_variables;
               EvInstantiate cls (llm_model s) pt] |}.
Proof.
  intros Hr Ht -> Hc Hi Hp. unfold build_chain, bind at 1. rewrite Hr.
  run_method. rewrite Ht. unfold getitem. rewrite Hc, Hi, Hp. reflexivity.
Qed.

Lemma build_chain_lookup_error prompt_template s v e :
  read_chain_type s = {| result := Ok v; after := s; log := [] |} →
  table_getitem (chain_factory s) v = Raise e →
  build_chain prompt_template s = {| result := Raise e; after := s; log := [] |}.
Proof.
  intros Hr Ht. unfold build_chain, bind at 1. rewrite Hr.
  run_method. rewrite Ht. reflexivity.
Qed.

Lemma create_chain_selected model_config prompt_template s v cls fields
    template input_variables pt :
  result (load_llm_model model_config s) = Ok tt →
  read_chain_type (after (load_llm_model model_config s)) =
    {| result := Ok v; after := after (load_llm_model model_config s); log := [] |} →
  table_getitem (chain_factory s) v = Ok cls →
  prompt_template = PDict fields →
  fields !! "content" = Some template →
  fields !! "input_variables" = Some input_variables →
  PromptTemplate template input_variables = Ok pt →
  create_chain model_config prompt_template s =
    {| result := instantiate cls (llm_model (after (load_llm_model model_config s))) pt;
       after := after (load_llm_model model_config s);
       log := log (load_llm_model model_config s) ++
              [EvPromptTemplate template input_variables;
               EvInstantiate cls (llm_model (after (load_llm_model model_config s))) pt] |}.
Proof.
  intros Hok Hr Ht Hp Hc Hi Hpt.
  destruct (load_frame model_config s) as (_ & _ & _ & _ & Hf).
  rewrite create_chain_after_load by assumption.
  rewrite (build_chain_selected _ _ v cls fields template input_variables pt);
    auto. rewrite Hf. exact Ht.
Qed.

Lemma create_chain_lookup_error model_config prompt_template s fields v e :
  chain_config s = PDict fields →
  fields !! "chain_type" = Some v →
  table_getitem (chain_factory s) v = Raise e →
  result (load_llm_model model_config s) = Ok tt →
  create_chain model_config prompt_template s =
    {| result := Raise e;
       after := after (load_llm_model model_config s);
       log := log (load_llm_model model_config s) |}.
Proof.
  intros Hc Hv Ht Hok.
  destruct (load_frame model_config s) as (Hcc & _ & _ & _ & Hf).
  rewrite create_chain_after_load by assumption.
  rewrite (build_chain_lookup_error _ _ v e).
  - simpl. rewrite app_nil_r. reflexivity.
  - apply (read_chain_type_present _ fields); [rewrite Hcc; exact Hc|exact Hv].
  - rewrite Hf. exact Ht.
Qed.

Lemma classes_used_app t1 t2 :
  classes_used (t1 ++ t2) = classes_used t1 ++ classes_used t2.
Proof.
  induction t1 as [|e t1 IH]; [reflexivity|].
  destruct e; simpl; rewrite IH; reflexivity.
Qed.

Lemma load_classes model_config s :
  classes_used (log (load_llm_model model_config s)) = [].
Proof.
  pose proof (load_summary model_config s) as H.
  destruct (llm_model s); [rewrite H; reflexivity|].
  destruct (get_model _ _); [|rewrite H; reflexivity].
  destruct (truthy _); [destruct (cache_llm _ _)|]; rewrite H; reflexivity.
Qed.

Lemma build_chain_classes prompt_template s v cls :
  read_chain_type s = {| result := Ok v; after := s; log := [] |} →
  table_getitem (chain_factory s) v = Ok cls →
  Forall (eq cls) (classes_used (log (build_chain prompt_template s))).
Proof.
  intros Hr Ht. unfold build_chain, bind at 1. rewrite Hr.
  run_method. rewrite Ht. split_cases; repeat constructor.
  all: destruct (instantiate _ _ _); simpl; repeat constructor.
Qed.

(** The log of [create_chain] is the log of the model block, followed
    by the log of the rest when the block raised nothing. *)
Lemma create_chain_log model_config prompt_template s :
  log (create_chain model_config prompt_template s) =
    log (load_llm_model model_config s) ++
    (if is_ok (result (load_llm_model model_config s))
     then log (build_chain prompt_template (after (load_llm_model model_config s)))
     else []).
Proof.
  destruct (result (load_llm_model model_config s)) as [[]|e] eqn:Hok.
  - rewrite create_chain_after_load by assumption. reflexivity.
  - rewrite (create_chain_load_error _ _ _ e Hok). simpl.
    rewrite app_nil_r. reflexivity.
Qed.

(** Every chain class that [create_chain] calls is the one the table
    holds for the chain type it read. *)
Lemma create_chain_classes model_config prompt_template s v cls :
  read_chain_type (after (load_llm_model model_config s)) =
    {| result := Ok v; after := after (load_llm_model model_config s); log := [] |} →
  table_getitem (chain_factory s) v = Ok cls →
  Forall (eq cls) (classes_used (log (create_chain model_config prompt_template s))).
Proof.
  intros Hr Ht. rewrite create_chain_log, classes_used_app, load_classes. simpl.
  destruct (is_ok _); [|constructor].
  apply (build_chain_classes _ _ v); [exact Hr|].
  destruct (load_frame model_config s) as (_ & _ & _ & _ & Hf).
  rewrite Hf. exact Ht.
Qed.

(** ** C4, C5, C6 and C10 *)

(** C4.  When the mapping [chain_config] has no key [chain_type], the
    lookup raises nothing and yields the value [default]; [create_chain]
    calls no chain class but [LLMChain], and it calls it with the stored
    handle and the prompt template it has just built and returns what
    that class returns. *)
Theorem create_chain_default_when_type_missing model_config prompt_template s
    fields prompt_fields template input_variables pt :
  chain_config s = PDict fields →
  fields !! "chain_type" = None →
  chain_factory s = factory_table →
  result (load_llm_model model_config s) = Ok tt →
  prompt_template = PDict prompt_fields →
  prompt_fields !! "content" = Some template →
  prompt_fields !! "input_variables" = Some input_variables →
  PromptTemplate template input_variables = Ok pt →
  result (read_chain_type (after (load_llm_model model_config s))) = Ok (PStr "default") ∧
  Forall (eq LLMChain) (classes_used (log (create_chain model_config prompt_template s))) ∧
  create_chain model_config prompt_template s =
    {| result := instantiate LLMChain (llm_model (after (load_llm_model model_config s))) pt;
       after := after (load_llm_model model_config s);
       log := log (load_llm_model model_config s) ++
              [EvPromptTemplate template input_variables;
               EvInstantiate LLMChain (llm_model (after (load_llm_model model_config s))) pt] |}.
Proof.
  intros Hc Hv Hf Hok Hp Hpc Hpi Hpt.
  destruct (load_frame model_config s) as (Hcc & _).
  assert (Hr : read_chain_type (after (load_llm_model model_config s)) =
               {| result := Ok (PStr "default");
                  after := after (load_llm_model model_config s); log := [] |}).
  { apply (read_chain_type_missing _ fields); [rewrite Hcc; exact Hc|exact Hv]. }
  assert (Ht : table_getitem (chain_factory s) (PStr "default") = Ok LLMChain).
  { rewrite Hf. exact factory_table_default. }
  split; [rewrite Hr; reflexivity|].
  split; [exact (create_chain_classes _ _ _ _ _ Hr Ht)|].
  apply (create_chain_selected _ _ _ (PStr "default") LLMChain prompt_fields);
    auto.
Qed.

(** C5.  When [chain_config] holds [chain_type] equal to [math],
    [create_chain] calls no chain class but [LLMMathChain], and it calls
    it with the handle stored in [llm_model] and the prompt template it
    has just built and returns what that class returns. *)
Theorem create_chain_math model_config prompt_template s
    fields prompt_fields template input_variables pt :
  chain_config s = PDict fields →
  fields !! "chain_type" = Some (PStr "math") →
  chain_factory s = factory_table →
  result (load_llm_model model_config s) = Ok tt →
  prompt_template = PDict prompt_fields →
  prompt_fields !! "content" = Some template →
  prompt_fields !! "input_variables" = Some input_variables →
  PromptTemplate template input_variables = Ok pt →
  is_Some (llm_model (after (load_llm_model model_config s))) ∧
  Forall (eq LLMMathChain) (classes_used (log (create_chain model_config prompt_template s))) ∧
  create_chain model_config prompt_template s =
    {| result := instantiate LLMMathChain (llm_model (after (load_llm_model model_config s))) pt;
       after := after (load_llm_model model_config s);
       log := log (load_llm_model model_config s) ++
              [EvPromptTemplate template input_variables;
               EvInstantiate LLMMathChain (llm_model (after (load_llm_model model_config s))) pt] |}.
Proof.
  intros Hc Hv Hf Hok Hp Hpc Hpi Hpt.
  destruct (load_frame model_config s) as (Hcc & _).
  assert (Hr : read_chain_type (after (load_llm_model model_config s)) =
               {| result := Ok (PStr "math");
                  after := after (load_llm_model model_config s); log := [] |}).
  { apply (read_chain_type_present _ fields); [rewrite Hcc; exact Hc|exact Hv]. }
  assert (Ht : table_getitem (chain_factory s) (PStr "math") = Ok LLMMathChain).
  { rewrite Hf. exact factory_table_math. }
  split; [exact (load_ok_stored _ _ Hok)|].
  split; [exact (create_chain_classes _ _ _ _ _ Hr Ht)|].
  apply (create_chain_selected _ _ _ (PStr "math") LLMMathChain prompt_fields);
    auto.
Qed.

(** C6.  When [chain_config] holds a [chain_type] that is neither
    [math] nor [default], [create_chain] returns no chain and calls no
    chain class; once the model block has passed it raises the error of
    the table lookup as it is, before any prompt template is built:
    [KeyError] for that value, or the [TypeError] of an unhashable key
    when the value is a list or a dictionary. *)
Theorem create_chain_unknown_type model_config prompt_template s fields v :
  chain_config s = PDict fields →
  fields !! "chain_type" = Some v →
  v ≠ PStr "math" →
  v ≠ PStr "default" →
  chain_factory s = factory_table →
  is_ok (result (create_chain model_config prompt_template s)) = false ∧
  classes_used (log (create_chain model_config prompt_template s)) = [] ∧
  (result (load_llm_model model_config s) = Ok tt →
   create_chain model_config prompt_template s =
     {| result := Raise (if hashable v then KeyError v
                         else TypeError "unhashable type");
        after := after (load_llm_model model_config s);
        log := log (load_llm_model model_config s) |}).
Proof.
  intros Hc Hv Hmath Hdef Hf.
  pose proof (factory_table_other v Hmath Hdef) as Ht. rewrite <- Hf in Ht.
  assert (Hrun : ∃ e, create_chain model_config prompt_template s =
                      {| result := Raise e;
                         after := after (load_llm_model model_config s);
                         log := log (load_llm_model model_config s) |}).
  { destruct (result (load_llm_model model_config s)) as [[]|e] eqn:Hok.
    - eexists. exact (create_chain_lookup_error _ _ _ fields v _ Hc Hv Ht Hok).
    - exists e. exact (create_chain_load_error _ _ _ e Hok). }
  destruct Hrun as [e Hrun].
  split; [rewrite Hrun; reflexivity|].
  split; [rewrite Hrun; apply load_classes|].
  intros Hok. exact (create_chain_lookup_error _ _ _ fields v _ Hc Hv Ht Hok).
Qed.

(** C10.  A [create_chain] call that starts with no handle, gets one
    from the provider (wrapped when the cache flag is true) and then
    fails in the table lookup on an unknown [chain_type] has stored that
    handle before it raised: the object it leaves holds the handle, and
    a later [create_chain] call requests no model, hands the stored
    handle to the chain class and behaves the same for every model
    configuration it is given. *)
Theorem create_chain_not_atomic model_config prompt_template s fields v m h :
  chain_config s = PDict fields →
  fields !! "chain_type" = Some v →
  v ≠ PStr "math" →
  v ≠ PStr "default" →
  chain_factory s = factory_table →
  llm_model s = None →
  get_model (llm_models_factory s) model_config = Ok m →
  (truthy (cache s) = false ∧ h = m ∨
   truthy (cache s) = true ∧ cache_llm (cacher s) m = Ok h) →
  result (create_chain model_config prompt_template s) =
    Raise (if hashable v then KeyError v else TypeError "unhashable type") ∧
  after (create_chain model_config prompt_template s) = with_llm_model s h ∧
  built (log (create_chain model_config prompt_template s)) = 1 ∧
  (∀ model_config2 model_config2' prompt_template2,
     create_chain model_config2 prompt_template2
       (after (create_chain model_config prompt_template s)) =
     create_chain model_config2' prompt_template2
       (after (create_chain model_config prompt_template s)) ∧
     llm_model (after (create_chain model_config2 prompt_template2
                         (after (create_chain model_config prompt_template s)))) = Some h ∧
     Forall (reuses h)
       (log (create_chain model_config2 prompt_template2
               (after (create_chain model_config prompt_template s))))).
Proof.
  intros Hc Hv Hmath Hdef Hf Hm Hg Hcache.
  assert (Hload : ∃ t, load_llm_model model_config s =
                       {| result := Ok tt; after := with_llm_model s h; log := t |}
                       ∧ built t = 1).
  { destruct Hcache as [[Hfalse ->]|[Htrue Hw]].
    - rewrite (load_plain _ _ _ Hm Hg Hfalse). eauto.
    - rewrite (load_wrapped _ _ _ _ Hm Hg Htrue Hw). eauto. }
  destruct Hload as (t & Hload & Hbuilt).
  assert (Hfail : create_chain model_config prompt_template s =
                  {| result := Raise (if hashable v then KeyError v
                                      else TypeError "unhashable type");
                     after := with_llm_model s h; log := t |}).
  { rewrite (create_chain_lookup_error _ _ _ fields v
               (if hashable v then KeyError v else TypeError "unhashable type"));
      auto.
    - rewrite Hload. reflexivity.
    - rewrite Hf. apply factory_table_other; assumption.
    - rewrite Hload. reflexivity. }
  rewrite Hfail. cbn [result after log].
  split; [reflexivity|]. split; [reflexivity|]. split; [exact Hbuilt|].
  intros model_config2 model_config2' prompt_template2. split; [|split].
  - rewrite (create_chain_reuse model_config2 _ _ h),
      (create_chain_reuse model_config2' _ _ h); reflexivity.
  - rewrite (create_chain_reuse model_config2 _ _ h) by reflexivity.
    rewrite build_chain_after. reflexivity.
  - rewrite (create_chain_reuse model_config2 _ _ h) by reflexivity.
    apply build_chain_reuses. reflexivity.
Qed.

(** ** C2 and C3: [execute] *)

(** C2.  With the cache flag true, [execute] formats the chain's prompt
    with the one keyword [text] bound to the input, calls the chain's
    model on the formatted text with the cacher's cache object, flushes
    that cache object once, and returns what the model returned. *)
Theorem execute_cached chain inputs s text output :
  truthy (cache s) = true →
  format (chain_prompt chain) [("text", inputs)] = Ok text →
  llm_call (chain_llm chain) text (llm_cache (cacher s)) = Ok output →
  flush (llm_cache (cacher s)) = Ok tt →
  execute chain inputs s =
    {| result := Ok output;
       after := s;
       log := [EvFormat (chain_prompt chain) [("text", inputs)];
               EvLLMCall (chain_llm chain) text (llm_cache (cacher s));
               EvFlush (llm_cache (cacher s))] |} ∧
  flushes (log (execute chain inputs s)) = 1.
Proof.
  intros Hc Hfmt Hllm Hfl.
  assert (H : execute chain inputs s =
    {| result := Ok output; after := s;
       log := [EvFormat (chain_prompt chain) [("text", inputs)];
               EvLLMCall (chain_llm chain) text (llm_cache (cacher s));
               EvFlush (llm_cache (cacher s))] |}).
  { run_method. rewrite Hc. simpl. rewrite Hfmt. simpl. rewrite Hllm. simpl.
    rewrite Hfl. reflexivity. }
  rewrite H. split; reflexivity.
Qed.

(** On the cached path the cache is flushed at most once, whatever the
    collaborators do, and not at all when formatting or the model call
    raises. *)
Lemma execute_cached_flushes chain inputs s :
  truthy (cache s) = true →
  flushes (log (execute chain inputs s)) =
    match format (chain_prompt chain) [("text", inputs)] with
    | Ok text =>
        if is_ok (llm_call (chain_llm chain) text (llm_cache (cacher s)))
        then 1 else 0
    | Raise _ => 0
    end.
Proof.
  intros Hc. run_method. rewrite Hc. simpl.
  destruct (format _ _) as [text|e]; simpl; [|reflexivity].
  destruct (llm_call _ _ _) as [output|e]; simpl; [|reflexivity].
  destruct (flush _) as [[]|e]; reflexivity.
Qed.

(** C3.  With the cache flag false, [execute] calls the chain itself on
    the input and returns the entry [text] of the mapping the chain
    returned; it makes no other call, so the cache is never flushed. *)
Theorem execute_uncached chain inputs s :
  truthy (cache s) = false →
  execute chain inputs s =
    {| result := (let? mapping := chain_call chain inputs in getitem mapping "text");
       after := s;
       log := [EvChainCall chain inputs] |} ∧
  flushes (log (execute chain inputs s)) = 0 ∧
  (∀ mapping text,
     chain_call chain inputs = Ok (PDict mapping) →
     mapping !! "text" = Some text →
     result (execute chain inputs s) = Ok text).
Proof.
  intros Hc.
  assert (H : execute chain inputs s =
    {| result := (let? mapping := chain_call chain inputs in getitem mapping "text");
       after := s; log := [EvChainCall chain inputs] |}).
  { run_method. rewrite Hc. simpl.
    destruct (chain_call chain inputs) as [mapping|e]; reflexivity. }
  rewrite H. split; [reflexivity|]. split; [reflexivity|].
  intros mapping text Hcall Ht. simpl. rewrite Hcall. simpl.
  unfold getitem. rewrite Ht. reflexivity.
Qed.

(** ** C7: [__init__] *)

(** C7.  On a configuration mapping, [__init__] raises the [KeyError]
    of the missing key when [chain_config] is absent, when
    [cache_config] is absent, and when the mapping [cache_config] has no
    key [cache]; when the keys are present and the two collaborators
    are constructed, it returns an object that holds [chain_config] and
    the cache flag, an empty [llm_model] and the table of the two chain
    classes. *)
Theorem init_requires_keys (config : gmap string pyval) :
  (config !! "chain_config" = None →
   __init__ (PDict config) = Raise (KeyError (PStr "chain_config"))) ∧
  (is_Some (config !! "chain_config") →
   config !! "cache_config" = None →
   __init__ (PDict config) = Raise (KeyError (PStr "cache_config"))) ∧
  (∀ cache_config : gmap string pyval,
     is_Some (config !! "chain_config") →
     config !! "cache_config" = Some (PDict cache_config) →
     cache_config !! "cache" = None →
     __init__ (PDict config) = Raise (KeyError (PStr "cache"))) ∧
  (∀ chain_config_ (cache_config : gmap string pyval) cache_ factory cacher_,
     config !! "chain_config" = Some chain_config_ →
     config !! "cache_config" = Some (PDict cache_config) →
     cache_config !! "cache" = Some cache_ →
     ModelsFactory_new = Ok factory →
     LLMCacher_new (PDict config) = Ok cacher_ →
     __init__ (PDict config) =
       Ok {| chain_config := chain_config_;
             llm_model := None;
             cache := cache_;
             llm_models_factory := factory;
             cacher := cacher_;
             chain_factory := factory_table |}).
Proof.
  unfold __init__, getitem. repeat split.
  - intros ->. reflexivity.
  - intros [cc ->] ->. reflexivity.
  - intros cache_config [cc ->] -> Hc. simpl. rewrite Hc. reflexivity.
  - intros cc cache_config flag factory cacher_ -> -> Hc Hf Hl. simpl.
    rewrite Hc. simpl. rewrite Hf. simpl. rewrite Hl. reflexivity.
Qed.

(** ** C8: [create_prompt] *)

(** C8.  [create_prompt] leaves the object as it found it, whatever the
    prompt specification, and its outcome does not depend on the object;
    on a specification that holds [content] and [input_variables] it
    makes the one call that constructs the prompt template from these
    two values and returns what that call returns. *)
Theorem create_prompt_pure prompt s :
  after (create_prompt prompt s) = s ∧
  (∀ s', result (create_prompt prompt s') = result (create_prompt prompt s) ∧
         log (create_prompt prompt s') = log (create_prompt prompt s)) ∧
  (∀ fields template input_variables,
     prompt = PDict fields →
     fields !! "content" = Some template →
     fields !! "input_variables" = Some input_variables →
     create_prompt prompt s =
       {| result := PromptTemplate template input_variables;
          after := s;
          log := [EvPromptTemplate template input_variables] |}).
Proof.
  split; [apply create_prompt_after|]. split.
  - intros s'. run_method. split_cases; auto.
  - intros fields template input_variables -> Hc Hi. run_method.
    unfold getitem. rewrite Hc, Hi. simpl.
    destruct (PromptTemplate template input_variables); reflexivity.
Qed.

(** ** Further properties of the class *)

(** When the wrapping raises, the handle the provider returned is
    already in the field: the call leaves the unwrapped handle behind,
    and the calls that follow use it and never wrap it, although the
    cache flag is true. *)
Theorem create_chain_wrap_error model_config prompt_template s m e :
  llm_model s = None →
  get_model (llm_models_factory s) model_config = Ok m →
  truthy (cache s) = true →
  cache_llm (cacher s) m = Raise e →
  create_chain model_config prompt_template s =
    {| result := Raise e;
       after := with_llm_model s m;
       log := [EvGetModel model_config (Ok m); EvCacheLLM m] |} ∧
  (∀ model_config2 prompt_template2,
     llm_model (after (create_chain model_config2 prompt_template2
                         (with_llm_model s m))) = Some m ∧
     Forall (reuses m)
       (log (create_chain model_config2 prompt_template2 (with_llm_model s m)))).
Proof.
  intros Hm Hg Hc Hw. split.
  - rewrite (create_chain_load_error _ _ _ e);
      rewrite (load_wrap_error _ _ _ _ Hm Hg Hc Hw); reflexivity.
  - intros model_config2 prompt_template2.
    rewrite (create_chain_reuse model_config2 _ _ m) by reflexivity.
    rewrite build_chain_after. split; [reflexivity|].
    apply build_chain_reuses. reflexivity.
Qed.

(** On the cached path an error of the formatting step is the error of
    [execute]: the model is not called and the cache is not flushed. *)
Theorem execute_format_error chain inputs s e :
  truthy (cache s) = true →
  format (chain_prompt chain) [("text", inputs)] = Raise e →
  execute chain inputs s =
    {| result := Raise e;
       after := s;
       log := [EvFormat (chain_prompt chain) [("text", inputs)]] |}.
Proof.
  intros Hc Hfmt. run_method. rewrite Hc. simpl. rewrite Hfmt. reflexivity.
Qed.

(** One [execute] flushes the cache at most once, on either path and
    whatever the collaborators return or raise. *)
Theorem execute_flushes_at_most_once chain inputs s :
  (flushes (log (execute chain inputs s)) ≤ 1)%nat.
Proof.
  run_method. destruct (truthy (cache s)); simpl.
  - destruct (format _ _); simpl; [|unfold flushes; simpl; lia].
    destruct (llm_call _ _ _); simpl; [|unfold flushes; simpl; lia].
    destruct (flush _); unfold flushes; simpl; lia.
  - destruct (chain_call _ _); unfold flushes; simpl; lia.
Qed.

(** [execute] assigns no field of the object. *)
Theorem execute_after chain inputs s : after (execute chain inputs s) = s.
Proof.
  run_method. destruct (truthy (cache s)); simpl.
  - destruct (format _ _); simpl; [|reflexivity].
    destruct (llm_call _ _ _); simpl; [|reflexivity].
    destruct (flush _); reflexivity.
  - destruct (chain_call _ _); reflexivity.
Qed.

(** [create_chain] assigns no field but [llm_model]. *)
Theorem create_chain_frame model_config prompt_template s :
  chain_config (after (create_chain model_config prompt_template s)) = chain_config s ∧
  cache (after (create_chain model_config prompt_template s)) = cache s ∧
  llm_models_factory (after (create_chain model_config prompt_template s)) =
    llm_models_factory s ∧
  cacher (after (create_chain model_config prompt_template s)) = cacher s ∧
  chain_factory (after (create_chain model_config prompt_template s)) = chain_factory s.
Proof.
  assert (Ha : after (create_chain model_config prompt_template s) =
               after (load_llm_model model_config s)).
  { destruct (result (load_llm_model model_config s)) as [[]|e] eqn:Hok.
    - rewrite create_chain_after_load by assumption. reflexivity.
    - rewrite (create_chain_load_error _ _ _ e Hok). reflexivity. }
  rewrite Ha. apply load_frame.
Qed.

(** An object that [__init__] returns has an empty [llm_model] and the
    table of the two chain classes. *)
Theorem init_object config s :
  __init__ config = Ok s →
  llm_model s = None ∧ chain_factory s = factory_table.
Proof.
  unfold __init__, res_bind. intros H.
  destruct (getitem config "chain_config"); [|discriminate].
  destruct (getitem config "cache_config") as [cache_config|]; [|discriminate].
  destruct (getitem cache_config "cache"); [|discriminate].
  destruct ModelsFactory_new; [|discriminate].
  destruct (LLMCacher_new config); [|discriminate].
  injection H as <-. split; reflexivity.
Qed.

(** ** The shape of [create_chain] in every case *)

Lemma read_chain_type_outcome s :
  read_chain_type s =
    {| result := result (read_chain_type s); after := s; log := [] |}.
Proof.
  destruct (read_chain_type_after s) as [Ha Hl].
  destruct (read_chain_type s) as [r s' t]. simpl in *. subst. reflexivity.
Qed.

(** The chain type read depends on the field [chain_config] alone. *)
Lemma read_chain_type_congr s s' :
  chain_config s = chain_config s' →
  result (read_chain_type s) = result (read_chain_type s').
Proof. intros H. run_method. rewrite H. split_cases; reflexivity. Qed.

(** What [create_prompt] returns and calls does not depend on the object. *)
Lemma create_prompt_congr prompt s s' :
  result (create_prompt prompt s) = result (create_prompt prompt s') ∧
  log (create_prompt prompt s) = log (create_prompt prompt s').
Proof. run_method. split_cases; auto. Qed.

(** The last block of [create_chain], stage by stage: the chain type,
    the table, the prompt, the class. *)
Lemma build_chain_cases prompt_template s :
  build_chain prompt_template s =
    match result (read_chain_type s) with
    | Raise e => {| result := Raise e; after := s; log := [] |}
    | Ok v =>
        match table_getitem (chain_factory s) v with
        | Raise e => {| result := Raise e; after := s; log := [] |}
        | Ok cls =>
            match result (create_prompt prompt_template s) with
            | Raise e =>
                {| result := Raise e; after := s;
                   log := log (create_prompt prompt_template s) |}
            | Ok pt =>
                {| result := instantiate cls (llm_model s) pt; after := s;
                   log := log (create_prompt prompt_template s) ++
                          [EvInstantiate cls (llm_model s) pt] |}
            end
        end
    end.
Proof.
  pose proof (read_chain_type_outcome s) as Hr.
  pose proof (create_prompt_after prompt_template s) as Hp.
  unfold build_chain, bind at 1. rewrite Hr. cbn [result after log].
  destruct (result (read_chain_type s)) as [v|e]; [|reflexivity].
  unfold bind at 1, get_self. cbn [result after log].
  unfold bind at 1, lift. cbn [result after log].
  destruct (table_getitem (chain_factory s) v) as [cls|e]; [|reflexivity].
  unfold bind at 1. cbn [result after log].
  unfold bind at 1.
  destruct (create_prompt prompt_template s) as [rp sp tp]. simpl in Hp.
  subst sp. cbn [result after log].
  destruct rp as [pt|e]; [|reflexivity].
  unfold call_instantiate, bind, emit, lift. cbn [result after log].
  reflexivity.
Qed.

Lemma getitem_not_mapping (obj : pyval) (key : string) :
  (∀ fields, obj ≠ PDict fields) →
  ∃ msg, getitem obj key = Raise (TypeError msg).
Proof.
  intros Hn. destruct obj; unfold getitem; eauto.
  exfalso. exact (Hn _ eq_refl).
Qed.

Lemma create_prompt_classes prompt s :
  classes_used (log (create_prompt prompt s)) = [] ∧
  forallb is_construction (log (create_prompt prompt s)) = true.
Proof. run_method. split_cases; auto. Qed.

Lemma load_constructs model_config s :
  forallb is_construction (log (load_llm_model model_config s)) = true.
Proof.
  pose proof (load_summary model_config s) as H.
  destruct (llm_model s); [rewrite H; reflexivity|].
  destruct (get_model _ _); [|rewrite H; reflexivity].
  destruct (truthy _); [destruct (cache_llm _ _)|]; rewrite H; reflexivity.
Qed.

(** ** Errors of [create_chain] and [create_prompt] *)

(** When the provider raises, [create_chain] raises the same error
    and leaves the object as it was, having made that one call; the
    field is still empty, so a later call asks the provider again with
    its own model configuration and stores what it gets. *)
Theorem create_chain_provider_error model_config prompt_template s e :
  llm_model s = None →
  get_model (llm_models_factory s) model_config = Raise e →
  create_chain model_config prompt_template s =
    {| result := Raise e; after := s;
       log := [EvGetModel model_config (Raise e)] |} ∧
  (∀ model_config2 prompt_template2 m h,
     get_model (llm_models_factory s) model_config2 = Ok m →
     (truthy (cache s) = false ∧ h = m ∨
      truthy (cache s) = true ∧ cache_llm (cacher s) m = Ok h) →
     llm_model (after (create_chain model_config2 prompt_template2
                         (after (create_chain model_config prompt_template s)))) =
       Some h).
Proof.
  intros Hm Hg.
  assert (Hfail : create_chain model_config prompt_template s =
                  {| result := Raise e; after := s;
                     log := [EvGetModel model_config (Raise e)] |}).
  { rewrite (create_chain_load_error _ _ _ e);
      rewrite (load_provider_error _ _ _ Hm Hg); reflexivity. }
  split; [exact Hfail|].
  intros mc2 p2 m h Hg2 Hcache. rewrite Hfail. cbn [after].
  destruct Hcache as [[Hfalse ->]|[Htrue Hw]].
  - rewrite create_chain_after_load; rewrite (load_plain _ _ _ Hm Hg2 Hfalse);
      reflexivity.
  - rewrite create_chain_after_load;
      rewrite (load_wrapped _ _ _ _ Hm Hg2 Htrue Hw); reflexivity.
Qed.

(** When the field [chain_config] is not a mapping, reading the chain
    type raises [TypeError], which the handler for [KeyError] does not
    catch: [create_chain] returns no chain and calls no chain class,
    and once the model block has passed it raises that [TypeError]
    instead of falling back to the default class. *)
Theorem create_chain_config_not_mapping model_config prompt_template s :
  (∀ fields, chain_config s ≠ PDict fields) →
  is_ok (result (create_chain model_config prompt_template s)) = false ∧
  classes_used (log (create_chain model_config prompt_template s)) = [] ∧
  (result (load_llm_model model_config s) = Ok tt →
   ∃ msg,
     create_chain model_config prompt_template s =
       {| result := Raise (TypeError msg);
          after := after (load_llm_model model_config s);
          log := log (load_llm_model model_config s) |}).
Proof.
  intros Hn.
  destruct (load_frame model_config s) as (Hcc & _).
  assert (Hb : ∃ msg, build_chain prompt_template (after (load_llm_model model_config s)) =
                 {| result := Raise (TypeError msg);
                    after := after (load_llm_model model_config s); log := [] |}).
  { destruct (getitem_not_mapping (chain_config s) "chain_type" Hn) as [msg Hg].
    exists msg. rewrite build_chain_cases.
    assert (Hr : result (read_chain_type (after (load_llm_model model_config s))) =
                 Raise (TypeError msg)).
    { rewrite (read_chain_type_congr _ s Hcc). run_method. rewrite Hg.
      reflexivity. }
    rewrite Hr. reflexivity. }
  destruct Hb as [msg Hb].
  destruct (result (load_llm_model model_config s)) as [[]|e] eqn:Hok.
  - rewrite create_chain_after_load by assumption. rewrite Hb. simpl.
    rewrite app_nil_r. split; [reflexivity|]. split; [apply load_classes|].
    intros _. exists msg. reflexivity.
  - rewrite (create_chain_load_error _ _ _ e Hok). simpl.
    split; [reflexivity|]. split; [apply load_classes|]. discriminate.
Qed.

(** A prompt specification without [content], or with [content] but
    without [input_variables], makes [create_prompt] raise the
    [KeyError] of the first missing key, and one that is not a mapping
    makes it raise [TypeError]; in each case the template constructor
    is not called and the object is unchanged. *)
Theorem create_prompt_invalid prompt s :
  (∀ fields, prompt = PDict fields → fields !! "content" = None →
     create_prompt prompt s =
       {| result := Raise (KeyError (PStr "content")); after := s; log := [] |}) ∧
  (∀ fields, prompt = PDict fields → is_Some (fields !! "content") →
     fields !! "input_variables" = None →
     create_prompt prompt s =
       {| result := Raise (KeyError (PStr "input_variables")); after := s; log := [] |}) ∧
  ((∀ fields, prompt ≠ PDict fields) →
     ∃ msg, create_prompt prompt s =
              {| result := Raise (TypeError msg); after := s; log := [] |}).
Proof.
  split; [|split].
  - intros fields -> Hc. run_method. unfold getitem. rewrite Hc. reflexivity.
  - intros fields -> [c Hc] Hi. run_method. unfold getitem. rewrite Hc, Hi.
    reflexivity.
  - intros Hn. destruct (getitem_not_mapping prompt "content" Hn) as [msg Hg].
    exists msg. run_method. rewrite Hg. reflexivity.
Qed.

(** An error of [create_prompt] inside [create_chain] comes after the
    model block and after the class was picked from the table: the
    handle is already stored, [create_chain] raises the error of
    [create_prompt] as it is (a [KeyError] of the prompt is not turned
    into the default), and no chain class is called. *)
Theorem create_chain_prompt_error model_config prompt_template s v cls e :
  result (load_llm_model model_config s) = Ok tt →
  result (read_chain_type s) = Ok v →
  table_getitem (chain_factory s) v = Ok cls →
  result (create_prompt prompt_template s) = Raise e →
  create_chain model_config prompt_template s =
    {| result := Raise e;
       after := after (load_llm_model model_config s);
       log := log (load_llm_model model_config s) ++
              log (create_prompt prompt_template s) |} ∧
  is_Some (llm_model (after (create_chain model_config prompt_template s))) ∧
  classes_used (log (create_chain model_config prompt_template s)) = [].
Proof.
  intros Hok Hr Ht Hp.
  destruct (load_frame model_config s) as (Hcc & _ & _ & _ & Hf).
  destruct (create_prompt_congr prompt_template
              (after (load_llm_model model_config s)) s) as [Hpr Hpl].
  assert (Hrun : create_chain model_config prompt_template s =
    {| result := Raise e;
       after := after (load_llm_model model_config s);
       log := log (load_llm_model model_config s) ++
              log (create_prompt prompt_template s) |}).
  { rewrite create_chain_after_load by assumption. rewrite build_chain_cases.
    rewrite (read_chain_type_congr _ s Hcc), Hr, Hf, Ht, Hpr, Hp, Hpl.
    reflexivity. }
  rewrite Hrun. cbn [result after log].
  split; [reflexivity|]. split; [exact (load_ok_stored _ _ Hok)|].
  rewrite classes_used_app, load_classes.
  destruct (create_prompt_classes prompt_template s) as [Hc _]. rewrite Hc.
  reflexivity.
Qed.

(** Whenever [create_chain] returns a chain, that chain is what the
    class held by the table for the chain type returned, called on the
    handle that the object holds afterwards and on the prompt template
    that [create_prompt] returns; this call is the last one made. *)
Theorem create_chain_returns model_config prompt_template s chain :
  result (create_chain model_config prompt_template s) = Ok chain →
  ∃ v cls h pt,
    result (read_chain_type s) = Ok v ∧
    table_getitem (chain_factory s) v = Ok cls ∧
    result (create_prompt prompt_template s) = Ok pt ∧
    llm_model (after (create_chain model_config prompt_template s)) = Some h ∧
    instantiate cls (Some h) pt = Ok chain ∧
    log (create_chain model_config prompt_template s) =
      log (load_llm_model model_config s) ++
      log (create_prompt prompt_template s) ++
      [EvInstantiate cls (Some h) pt].
Proof.
  intros Hres.
  destruct (load_frame model_config s) as (Hcc & _ & _ & _ & Hf).
  destruct (create_prompt_congr prompt_template
              (after (load_llm_model model_config s)) s) as [Hpr Hpl].
  destruct (result (load_llm_model model_config s)) as [[]|e] eqn:Hok;
    [|rewrite (create_chain_load_error _ _ _ e Hok) in Hres; discriminate].
  destruct (load_ok_stored _ _ Hok) as [h Hh].
  rewrite create_chain_after_load in Hres |- * by assumption.
  rewrite build_chain_cases in Hres |- *.
  rewrite (read_chain_type_congr _ s Hcc), Hf, Hpr, Hpl, Hh in Hres |- *.
  destruct (result (read_chain_type s)) as [v|] eqn:Hv; [|discriminate].
  destruct (table_getitem (chain_factory s) v) as [cls|] eqn:Ht; [|discriminate].
  destruct (result (create_prompt prompt_template s)) as [pt|] eqn:Hp;
    [|discriminate].
  cbn [result after log] in Hres |- *.
  exists v, cls, h, pt. repeat split; auto.
Qed.

(** ** What each method never calls *)

Lemma create_chain_log_constructs model_config prompt_template s :
  forallb is_construction (log (create_chain model_config prompt_template s)) = true.
Proof.
  rewrite create_chain_log, forallb_app, load_constructs. simpl.
  destruct (is_ok _); [|reflexivity].
  rewrite build_chain_cases.
  destruct (create_prompt_classes prompt_template
              (after (load_llm_model model_config s))) as [_ Hp].
  destruct (result (read_chain_type _)); [|reflexivity].
  destruct (table_getitem _ _); [|reflexivity].
  destruct (result (create_prompt _ _)); cbn [log]; [|exact Hp].
  rewrite forallb_app, Hp. reflexivity.
Qed.

(** The log of [execute], path by path. *)
Lemma execute_log chain inputs s :
  log (execute chain inputs s) =
    if truthy (cache s) then
      EvFormat (chain_prompt chain) [("text", inputs)] ::
      match format (chain_prompt chain) [("text", inputs)] with
      | Raise _ => []
      | Ok text =>
          EvLLMCall (chain_llm chain) text (llm_cache (cacher s)) ::
          match llm_call (chain_llm chain) text (llm_cache (cacher s)) with
          | Raise _ => []
          | Ok _ => [EvFlush (llm_cache (cacher s))]
          end
      end
    else [EvChainCall chain inputs].
Proof.
  run_method. destruct (truthy (cache s)); simpl.
  - destruct (format _ _); simpl; [|reflexivity].
    destruct (llm_call _ _ _); simpl; [|reflexivity].
    destruct (flush _); reflexivity.
  - destruct (chain_call _ _); reflexivity.
Qed.

(** [create_chain] only builds: it never formats a prompt, calls a
    model or a chain, or flushes the cache. *)
Theorem create_chain_only_constructs model_config prompt_template s :
  forallb is_construction (log (create_chain model_config prompt_template s)) = true.
Proof. apply create_chain_log_constructs. Qed.

(** [execute] only runs: it never asks for a model, wraps one, or
    builds a prompt template or a chain. *)
Theorem execute_only_runs chain inputs s :
  forallb is_execution (log (execute chain inputs s)) = true.
Proof.
  rewrite execute_log. destruct (truthy (cache s)); [|reflexivity]. simpl.
  destruct (format _ _); [|reflexivity]. simpl.
  destruct (llm_call _ _ _); reflexivity.
Qed.

(** ** Errors and independence of [execute] *)

(** On the cached path, once the prompt is formatted: when the model
    call raises, [execute] raises that error and the cache is not
    flushed; when the model returns and the flush raises, [execute]
    raises the error of the flush and the model's output is not
    returned. *)
Theorem execute_cached_late_errors chain inputs s text e :
  truthy (cache s) = true →
  format (chain_prompt chain) [("text", inputs)] = Ok text →
  (llm_call (chain_llm chain) text (llm_cache (cacher s)) = Raise e →
   execute chain inputs s =
     {| result := Raise e; after := s;
        log := [EvFormat (chain_prompt chain) [("text", inputs)];
                EvLLMCall (chain_llm chain) text (llm_cache (cacher s))] |}) ∧
  (∀ output,
     llm_call (chain_llm chain) text (llm_cache (cacher s)) = Ok output →
     flush (llm_cache (cacher s)) = Raise e →
     execute chain inputs s =
       {| result := Raise e; after := s;
          log := [EvFormat (chain_prompt chain) [("text", inputs)];
                  EvLLMCall (chain_llm chain) text (llm_cache (cacher s));
                  EvFlush (llm_cache (cacher s))] |}).
Proof.
  intros Hc Hfmt. split.
  - intros Hllm. run_method. rewrite Hc. simpl. rewrite Hfmt. simpl.
    rewrite Hllm. reflexivity.
  - intros output Hllm Hfl. run_method. rewrite Hc. simpl. rewrite Hfmt. simpl.
    rewrite Hllm. simpl. rewrite Hfl. reflexivity.
Qed.

(** On the uncached path the only call is the chain's: when the chain
    raises, [execute] raises that error; when the chain returns a
    mapping without the key [text], [execute] raises [KeyError] for
    [text]; when it returns something that is not a mapping, [execute]
    raises [TypeError]. *)
Theorem execute_uncached_errors chain inputs s :
  truthy (cache s) = false →
  (∀ e, chain_call chain inputs = Raise e →
     execute chain inputs s =
       {| result := Raise e; after := s; log := [EvChainCall chain inputs] |}) ∧
  (∀ mapping, chain_call chain inputs = Ok (PDict mapping) →
     mapping !! "text" = None →
     execute chain inputs s =
       {| result := Raise (KeyError (PStr "text")); after := s;
          log := [EvChainCall chain inputs] |}) ∧
  (∀ answer, chain_call chain inputs = Ok answer →
     (∀ mapping, answer ≠ PDict mapping) →
     ∃ msg, execute chain inputs s =
              {| result := Raise (TypeError msg); after := s;
                 log := [EvChainCall chain inputs] |}).
Proof.
  intros Hc. split; [|split].
  - intros e Hcall. run_method. rewrite Hc. simpl. rewrite Hcall. reflexivity.
  - intros mapping Hcall Ht. run_method. rewrite Hc. simpl. rewrite Hcall.
    unfold getitem. rewrite Ht. reflexivity.
  - intros answer Hcall Hn.
    destruct (getitem_not_mapping answer "text" Hn) as [msg Hg].
    exists msg. run_method. rewrite Hc. simpl. rewrite Hcall, Hg. reflexivity.
Qed.

(** [execute] reads the cache flag and, on the cached path, the
    cacher, and nothing else of the object: two objects that agree on
    these give the same result and make the same calls, whatever their
    model handle, chain configuration and factory table. *)
Theorem execute_reads_cache_only chain inputs s s' :
  truthy (cache s) = truthy (cache s') →
  (truthy (cache s) = true → cacher s = cacher s') →
  result (execute chain inputs s) = result (execute chain inputs s') ∧
  log (execute chain inputs s) = log (execute chain inputs s').
Proof.
  intros Ht Hc. run_method. rewrite <- Ht.
  destruct (truthy (cache s)); simpl.
  - rewrite <- (Hc eq_refl).
    destruct (format _ _); simpl; [|auto].
    destruct (llm_call _ _ _); simpl; [|auto].
    destruct (flush _); auto.
  - destruct (chain_call _ _); auto.
Qed.

(** ** Sessions *)

Lemma create_chain_after_eq model_config prompt_template s :
  after (create_chain model_config prompt_template s) =
  after (load_llm_model model_config s).
Proof.
  destruct (result (load_llm_model model_config s)) as [[]|e] eqn:Hok.
  - rewrite create_chain_after_load by assumption. reflexivity.
  - rewrite (create_chain_load_error _ _ _ e Hok). reflexivity.
Qed.

Lemma create_prompt_quiet prompt s :
  built (log (create_prompt prompt s)) = 0 ∧
  List.filter touches_cache (log (create_prompt prompt s)) = [].
Proof. run_method. split_cases; auto. Qed.

Lemma execute_built chain inputs s : built (log (execute chain inputs s)) = 0.
Proof.
  rewrite execute_log. destruct (truthy (cache s)); [|reflexivity].
  destruct (format _ _); [|reflexivity].
  destruct (llm_call _ _ _); reflexivity.
Qed.

(** A log of construction calls holds no flush and no chain call. *)
Lemma constructs_quiet t :
  forallb is_construction t = true →
  flushes t = 0 ∧ List.filter is_chain_call t = [].
Proof.
  unfold flushes. induction t as [|e t IH]; [auto|].
  simpl. intros H. apply andb_prop in H as [He Ht].
  destruct (IH Ht) as [Hf Hc].
  destruct e; try discriminate; simpl; auto.
Qed.

Lemma built_app t1 t2 : built (t1 ++ t2) = built t1 + built t2.
Proof. unfold built. rewrite List.filter_app, length_app. reflexivity. Qed.

Lemma flushes_app t1 t2 : flushes (t1 ++ t2) = flushes t1 + flushes t2.
Proof. unfold flushes. rewrite List.filter_app, length_app. reflexivity. Qed.

(** From an empty field, a [create_chain] call either builds nothing
    and leaves the field empty, or builds one handle and stores one. *)
Lemma create_chain_built_or_empty model_config prompt_template s :
  llm_model s = None →
  llm_model (after (create_chain model_config prompt_template s)) = None ∧
    built (log (create_chain model_config prompt_template s)) = 0 ∨
  is_Some (llm_model (after (create_chain model_config prompt_template s))) ∧
    built (log (create_chain model_config prompt_template s)) = 1.
Proof.
  intros Hm.
  rewrite create_chain_after_eq, create_chain_log, built_app.
  assert (Hb : built (if is_ok (result (load_llm_model model_config s))
                      then log (build_chain prompt_template
                                  (after (load_llm_model model_config s)))
                      else []) = 0).
  { destruct (is_ok _); [apply build_chain_built|reflexivity]. }
  rewrite Hb.
  pose proof (load_summary model_config s) as H. rewrite Hm in H.
  destruct (get_model _ _) as [m|e].
  - right. destruct (truthy _); [destruct (cache_llm _ _)|]; rewrite H; simpl;
      eauto.
  - left. rewrite H. simpl. rewrite Hm. auto.
Qed.

Lemma run_call_frame c s :
  chain_config (fst (run_call c s)) = chain_config s ∧
  cache (fst (run_call c s)) = cache s ∧
  llm_models_factory (fst (run_call c s)) = llm_models_factory s ∧
  cacher (fst (run_call c s)) = cacher s ∧
  chain_factory (fst (run_call c s)) = chain_factory s.
Proof.
  destruct c as [prompt|model_config prompt_template|chain inputs]; simpl.
  - rewrite create_prompt_after. auto.
  - rewrite create_chain_after_eq. apply load_frame.
  - rewrite execute_after. auto.
Qed.

Lemma run_call_kept c s h :
  llm_model s = Some h →
  llm_model (fst (run_call c s)) = Some h ∧ built (snd (run_call c s)) = 0.
Proof.
  intros Hm.
  destruct c as [prompt|model_config prompt_template|chain inputs]; simpl.
  - rewrite create_prompt_after. split; [exact Hm|apply create_prompt_quiet].
  - rewrite (create_chain_reuse _ _ _ _ Hm), build_chain_after.
    split; [exact Hm|apply build_chain_built].
  - rewrite execute_after. split; [exact Hm|apply execute_built].
Qed.

Lemma run_call_from_empty c s :
  llm_model s = None →
  llm_model (fst (run_call c s)) = None ∧ built (snd (run_call c s)) = 0 ∨
  is_Some (llm_model (fst (run_call c s))) ∧ built (snd (run_call c s)) = 1.
Proof.
  intros Hm.
  destruct c as [prompt|model_config prompt_template|chain inputs]; simpl.
  - left. rewrite create_prompt_after. split; [exact Hm|apply create_prompt_quiet].
  - apply create_chain_built_or_empty. exact Hm.
  - left. rewrite execute_after. split; [exact Hm|apply execute_built].
Qed.

Lemma run_call_flushes c s :
  (flushes (snd (run_call c s)) ≤ if is_execute c then 1 else 0)%nat.
Proof.
  destruct c as [prompt|model_config prompt_template|chain inputs]; simpl.
  - destruct (create_prompt_classes prompt s) as [_ Hc].
    destruct (constructs_quiet _ Hc) as [-> _]. lia.
  - destruct (constructs_quiet _ (create_chain_log_constructs
                                    model_config prompt_template s)) as [-> _].
    lia.
  - apply execute_flushes_at_most_once.
Qed.

Lemma run_session_kept calls s h :
  llm_model s = Some h →
  llm_model (fst (run_session calls s)) = Some h ∧
  built (snd (run_session calls s)) = 0.
Proof.
  revert s. induction calls as [|c rest IH]; intros s Hm; simpl; [auto|].
  destruct (run_call_kept c s h Hm) as [Hk Hb].
  destruct (IH _ Hk) as [Hk' Hb']. rewrite built_app, Hb, Hb'. auto.
Qed.

Lemma run_session_from_empty calls s :
  llm_model s = None →
  llm_model (fst (run_session calls s)) = None ∧
    built (snd (run_session calls s)) = 0 ∨
  is_Some (llm_model (fst (run_session calls s))) ∧
    built (snd (run_session calls s)) = 1.
Proof.
  revert s. induction calls as [|c rest IH]; intros s Hm; simpl; [auto|].
  rewrite built_app.
  destruct (run_call_from_empty c s Hm) as [[Hn Hb]|[[h Hs] Hb]]; rewrite Hb.
  - exact (IH _ Hn).
  - right. destruct (run_session_kept rest _ h Hs) as [Hk Hb'].
    rewrite Hk, Hb'. eauto.
Qed.

(** Over any sequence of calls of the three public methods, the object
    keeps its chain configuration, cache flag, models factory, cacher
    and factory table; at most one model handle is built; the cache is
    flushed at most once per [execute] call; and a handle that is
    stored at the start is still the stored one at the end, with no
    handle built. *)
Theorem session_invariant calls s :
  chain_config (fst (run_session calls s)) = chain_config s ∧
  cache (fst (run_session calls s)) = cache s ∧
  llm_models_factory (fst (run_session calls s)) = llm_models_factory s ∧
  cacher (fst (run_session calls s)) = cacher s ∧
  chain_factory (fst (run_session calls s)) = chain_factory s ∧
  (built (snd (run_session calls s)) ≤ 1)%nat ∧
  (flushes (snd (run_session calls s)) ≤ executes calls)%nat ∧
  (∀ h, llm_model s = Some h →
        llm_model (fst (run_session calls s)) = Some h ∧
        built (snd (run_session calls s)) = 0).
Proof.
  assert (Hframe : ∀ calls s,
    chain_config (fst (run_session calls s)) = chain_config s ∧
    cache (fst (run_session calls s)) = cache s ∧
    llm_models_factory (fst (run_session calls s)) = llm_models_factory s ∧
    cacher (fst (run_session calls s)) = cacher s ∧
    chain_factory (fst (run_session calls s)) = chain_factory s).
  { clear. intros calls. induction calls as [|c rest IH]; intros s; simpl; [auto|].
    destruct (IH (fst (run_call c s))) as (-> & -> & -> & -> & ->).
    apply run_call_frame. }
  assert (Hflush : ∀ calls s,
    (flushes (snd (run_session calls s)) ≤ executes calls)%nat).
  { clear. intros calls. induction calls as [|c rest IH]; intros s; simpl;
      [unfold flushes; simpl; lia|].
    rewrite flushes_app. pose proof (run_call_flushes c s) as Hc.
    pose proof (IH (fst (run_call c s))) as Hr.
    unfold executes in *. simpl. destruct (is_execute c); simpl; lia. }
  destruct (Hframe calls s) as (H1 & H2 & H3 & H4 & H5).
  repeat (split; [assumption|]).
  split; [|split; [apply Hflush|intros h; apply run_session_kept]].
  destruct (llm_model s) as [h|] eqn:Hm.
  - destruct (run_session_kept calls s h Hm) as [_ ->]. lia.
  - destruct (run_session_from_empty calls s Hm) as [[_ ->]|[_ ->]]; lia.
Qed.

Lemma load_cache_off model_config s :
  truthy (cache s) = false →
  List.filter touches_cache (log (load_llm_model model_config s)) = [].
Proof.
  intros Hc. pose proof (load_summary model_config s) as H. rewrite Hc in H.
  destruct (llm_model s); [rewrite H; reflexivity|].
  destruct (get_model _ _); rewrite H; reflexivity.
Qed.

Lemma build_chain_no_cache prompt_template s :
  List.filter touches_cache (log (build_chain prompt_template s)) = [].
Proof.
  rewrite build_chain_cases.
  destruct (create_prompt_quiet prompt_template s) as [_ Hp].
  destruct (result (read_chain_type s)); [|reflexivity].
  destruct (table_getitem _ _); [|reflexivity].
  destruct (result (create_prompt _ _)); cbn [log]; [|exact Hp].
  rewrite List.filter_app, Hp. reflexivity.
Qed.

Lemma run_call_cache_off c s :
  truthy (cache s) = false →
  List.filter touches_cache (snd (run_call c s)) = [].
Proof.
  intros Hc.
  destruct c as [prompt|model_config prompt_template|chain inputs]; simpl.
  - apply create_prompt_quiet.
  - rewrite create_chain_log, List.filter_app, (load_cache_off _ _ Hc). simpl.
    destruct (is_ok _); [apply build_chain_no_cache|reflexivity].
  - rewrite execute_log, Hc. reflexivity.
Qed.

Lemma run_call_cache_on c s :
  truthy (cache s) = true →
  List.filter is_chain_call (snd (run_call c s)) = [].
Proof.
  intros Hc.
  destruct c as [prompt|model_config prompt_template|chain inputs]; simpl.
  - destruct (create_prompt_classes prompt s) as [_ Hp].
    apply (constructs_quiet _ Hp).
  - apply (constructs_quiet _ (create_chain_log_constructs _ _ _)).
  - rewrite execute_log, Hc. simpl.
    destruct (format _ _); [|reflexivity]. simpl.
    destruct (llm_call _ _ _); reflexivity.
Qed.

(** With a false cache flag, no call of any public method, in any
    order, involves the cacher: no model is wrapped, no model is called
    with a cache object, and the cache is never flushed. *)
Theorem session_cache_off calls s :
  truthy (cache s) = false →
  List.filter touches_cache (snd (run_session calls s)) = [] ∧
  flushes (snd (run_session calls s)) = 0.
Proof.
  intros Hc.
  assert (H : List.filter touches_cache (snd (run_session calls s)) = []).
  { revert s Hc. induction calls as [|c rest IH]; intros s Hc; simpl; [reflexivity|].
    rewrite List.filter_app, (run_call_cache_off c s Hc). simpl.
    apply IH. destruct (run_call_frame c s) as (_ & -> & _). exact Hc. }
  split; [exact H|].
  revert H. unfold flushes. generalize (snd (run_session calls s)).
  induction l as [|e t IH]; [reflexivity|]. simpl.
  destruct e; simpl; try discriminate; exact IH.
Qed.

(** With a true cache flag, no call of any public method, in any
    order, calls a chain itself: on this setting [execute] always goes
    through the prompt and the model of the chain. *)
Theorem session_cache_on calls s :
  truthy (cache s) = true →
  List.filter is_chain_call (snd (run_session calls s)) = [].
Proof.
  revert s. induction calls as [|c rest IH]; intros s Hc; simpl; [reflexivity|].
  rewrite List.filter_app, (run_call_cache_on c s Hc). simpl.
  apply IH. destruct (run_call_frame c s) as (_ & -> & _). exact Hc.
Qed.

(** ** [__init__] and the life of an object *)

(** [__init__] returns an object exactly when the configuration is a
    mapping that holds [chain_config] and a mapping [cache_config] with
    the key [cache], and the two collaborators are constructed; the
    object then holds these two values, the two collaborators, an empty
    [llm_model] and the table of the two chain classes. *)
Theorem init_ok_iff config s :
  __init__ config = Ok s ↔
  ∃ (fields cache_config : gmap string pyval),
    config = PDict fields ∧
    fields !! "chain_config" = Some (chain_config s) ∧
    fields !! "cache_config" = Some (PDict cache_config) ∧
    cache_config !! "cache" = Some (cache s) ∧
    ModelsFactory_new = Ok (llm_models_factory s) ∧
    LLMCacher_new config = Ok (cacher s) ∧
    llm_model s = None ∧
    chain_factory s = factory_table.
Proof.
  split.
  - unfold __init__, res_bind, getitem. intros H.
    destruct config as [| | | | |fields]; try discriminate.
    destruct (fields !! "chain_config") as [cc|] eqn:Hcc; [|discriminate].
    destruct (fields !! "cache_config") as [ccfg|] eqn:Hcf; [|discriminate].
    destruct ccfg as [| | | | |cache_config]; try discriminate.
    destruct (cache_config !! "cache") as [flag|] eqn:Hfl; [|discriminate].
    destruct ModelsFactory_new as [mf|] eqn:Hmf; [|discriminate].
    destruct (LLMCacher_new (PDict fields)) as [cr|] eqn:Hcr; [|discriminate].
    injection H as <-. exists fields, cache_config. simpl. repeat split; auto.
  - intros (fields & cache_config & -> & Hcc & Hcf & Hfl & Hmf & Hcr & Hm & Ht).
    unfold __init__, res_bind, getitem. rewrite Hcc, Hcf, Hfl, Hmf, Hcr.
    destruct s. simpl in *. subst. reflexivity.
Qed.

(** An object built by [__init__] starts with no handle, and after any
    sequence of calls of the public methods it still has the table of
    the two chain classes and the chain configuration read from the
    configuration, and it holds a handle exactly when the calls made
    show one successful [get_model]. *)
Theorem session_from_init config s calls :
  __init__ config = Ok s →
  chain_factory (fst (run_session calls s)) = factory_table ∧
  getitem config "chain_config" = Ok (chain_config (fst (run_session calls s))) ∧
  (llm_model (fst (run_session calls s)) = None ∧
     built (snd (run_session calls s)) = 0 ∨
   is_Some (llm_model (fst (run_session calls s))) ∧
     built (snd (run_session calls s)) = 1).
Proof.
  intros H. apply init_object in H as Hobj. destruct Hobj as [Hm Ht].
  assert (Hcc : getitem config "chain_config" = Ok (chain_config s)).
  { unfold __init__, res_bind in H.
    destruct (getitem config "chain_config") as [cc|]; [|discriminate].
    destruct (getitem config "cache_config") as [ccfg|]; [|discriminate].
    destruct (getitem ccfg "cache"); [|discriminate].
    destruct ModelsFactory_new; [|discriminate].
    destruct (LLMCacher_new config); [|discriminate].
    injection H as <-. reflexivity. }
  assert (Hframe : chain_config (fst (run_session calls s)) = chain_config s ∧
                   chain_factory (fst (run_session calls s)) = chain_factory s).
  { clear. revert s. induction calls as [|c rest IH]; intros s; simpl; [auto|].
    destruct (IH (fst (run_call c s))) as (-> & ->).
    destruct (run_call_frame c s) as (-> & _ & _ & _ & ->). auto. }
  destruct Hframe as [-> ->].
  split; [exact Ht|]. split; [exact Hcc|].
  apply run_session_from_empty. exact Hm.
Qed.

End Properties.

(** * The theorems at concrete inputs *)

Import Demo.

#[local] Existing Instance Demo.framework.

(** The scenario of the specification: no [chain_type], caching off,
    the prompt [Q: {q}] and the input [2+2]. *)
Example scenario_default :
  __init__ config_plain = Ok (object no_type (PBool false)) ∧
  result (create_chain model_a prompt_q (object no_type (PBool false))) =
    Ok {| cls := LLMChain; llm := Model model_a; prompt := template_q |} ∧
  result (execute {| cls := LLMChain; llm := Model model_a; prompt := template_q |}
            (PStr "2+2")
            (with_llm_model (object no_type (PBool false)) (Model model_a))) =
    Ok (PStr "2+2").
Proof. repeat split; vm_compute; reflexivity. Qed.

(** Two calls with different model configurations, caching on: one
    handle is built, from the first configuration, and both chains
    carry it. *)
Example scenario_two_calls :
  snd (run_create_chain [(model_a, prompt_q); (model_b, prompt_q)]
         (object no_type (PBool true))) =
    [EvGetModel model_a (Ok (Model model_a));
     EvCacheLLM (Model model_a);
     EvPromptTemplate (PStr "Q: {q}") (PList [PStr "q"]);
     EvInstantiate LLMChain (Some (Cached (Model model_a))) template_q;
     EvPromptTemplate (PStr "Q: {q}") (PList [PStr "q"]);
     EvInstantiate LLMChain (Some (Cached (Model model_a))) template_q].
Proof. vm_compute. reflexivity. Qed.

(** C1 at two calls with different model configurations. *)
Lemma model_handle_built_once_witness :
  (built (snd (run_create_chain [(model_a, prompt_q); (model_b, prompt_q)]
                 (object no_type (PBool true)))) ≤ 1)%nat ∧
  llm_model (after (create_chain model_a prompt_q (object no_type (PBool true)))) =
    Some (Cached (Model model_a)) ∧
  create_chain model_b prompt_q
    (with_llm_model (object no_type (PBool true)) (Cached (Model model_a))) =
  create_chain model_a prompt_q
    (with_llm_model (object no_type (PBool true)) (Cached (Model model_a))).
Proof.
  destruct (@model_handle_built_once Demo.framework)
    as (Hmost & _ & Hsame & _ & Hwrapped).
  split; [apply Hmost|]. split.
  - apply (Hwrapped model_a prompt_q (object no_type (PBool true))
             (Model model_a) (Cached (Model model_a)));
      reflexivity.
  - apply (Hsame model_b model_a prompt_q _ (Cached (Model model_a))).
    reflexivity.
Defined.

(** C2 at the chain [chain_q] and the input [2+2]. *)
Lemma execute_cached_witness :
  result (execute chain_q (PStr "2+2") (object no_type (PBool true))) =
    Ok (PList [PStr "Q: {q}"; PStr "2+2"]) ∧
  flushes (log (execute chain_q (PStr "2+2") (object no_type (PBool true)))) = 1.
Proof.
  destruct (@execute_cached Demo.framework chain_q (PStr "2+2")
              (object no_type (PBool true))
              (PList [PStr "Q: {q}"; PStr "2+2"])
              (PList [PStr "Q: {q}"; PStr "2+2"])
              eq_refl eq_refl eq_refl eq_refl) as [Hrun Hflush].
  split; [rewrite Hrun; reflexivity|exact Hflush].
Defined.

(** C3 at the chain [chain_q] and the input [2+2]. *)
Lemma execute_uncached_witness :
  result (execute chain_q (PStr "2+2") (object no_type (PBool false))) =
    Ok (PStr "2+2") ∧
  flushes (log (execute chain_q (PStr "2+2") (object no_type (PBool false)))) = 0.
Proof.
  destruct (@execute_uncached Demo.framework chain_q (PStr "2+2")
              (object no_type (PBool false)) eq_refl) as (_ & Hflush & Htext).
  split; [|exact Hflush].
  apply (Htext {[ "text" := PStr "2+2" ]}); reflexivity.
Defined.

(** C4 at a chain configuration without [chain_type]. *)
Lemma create_chain_default_when_type_missing_witness :
  result (create_chain model_a prompt_q (object no_type (PBool false))) =
    Ok {| cls := LLMChain; llm := Model model_a; prompt := template_q |}.
Proof.
  destruct (@create_chain_default_when_type_missing Demo.framework
              model_a prompt_q (object no_type (PBool false))
              ∅ {[ "content" := PStr "Q: {q}";
                   "input_variables" := PList [PStr "q"] ]}
              (PStr "Q: {q}") (PList [PStr "q"]) template_q
              eq_refl eq_refl eq_refl eq_refl eq_refl eq_refl eq_refl eq_refl)
    as (_ & _ & Hrun).
  rewrite Hrun. reflexivity.
Defined.

(** C5 at a chain configuration with [chain_type] set to [math]. *)
Lemma create_chain_math_witness :
  result (create_chain model_a prompt_q (object math_type (PBool false))) =
    Ok {| cls := LLMMathChain; llm := Model model_a; prompt := template_q |}.
Proof.
  destruct (@create_chain_math Demo.framework
              model_a prompt_q (object math_type (PBool false))
              {[ "chain_type" := PStr "math" ]}
              {[ "content" := PStr "Q: {q}";
                 "input_variables" := PList [PStr "q"] ]}
              (PStr "Q: {q}") (PList [PStr "q"]) template_q
              eq_refl eq_refl eq_refl eq_refl eq_refl eq_refl eq_refl eq_refl)
    as (_ & _ & Hrun).
  rewrite Hrun. reflexivity.
Defined.

(** C6 at a chain configuration with [chain_type] set to [sql]. *)
Lemma create_chain_unknown_type_witness :
  result (create_chain model_a prompt_q (object sql_type (PBool false))) =
    Raise (KeyError (PStr "sql")).
Proof.
  destruct (@create_chain_unknown_type Demo.framework
              model_a prompt_q (object sql_type (PBool false))
              {[ "chain_type" := PStr "sql" ]} (PStr "sql")
              eq_refl eq_refl ltac:(discriminate) ltac:(discriminate) eq_refl)
    as (_ & _ & Hrun).
  rewrite (Hrun eq_refl). reflexivity.
Defined.

(** C10 at the same configuration, caching on: the failed call leaves
    the wrapped handle of the first configuration behind. *)
Lemma create_chain_not_atomic_witness :
  result (create_chain model_a prompt_q (object sql_type (PBool true))) =
    Raise (KeyError (PStr "sql")) ∧
  after (create_chain model_a prompt_q (object sql_type (PBool true))) =
    with_llm_model (object sql_type (PBool true)) (Cached (Model model_a)).
Proof.
  destruct (@create_chain_not_atomic Demo.framework
              model_a prompt_q (object sql_type (PBool true))
              {[ "chain_type" := PStr "sql" ]} (PStr "sql")
              (Model model_a) (Cached (Model model_a))
              eq_refl eq_refl ltac:(discriminate) ltac:(discriminate)
              eq_refl eq_refl eq_refl
              (or_intror (conj eq_refl eq_refl)))
    as (Hraise & Hafter & _).
  split; assumption.
Defined.

(** C7 at a configuration with every key, and at the empty one. *)
Lemma init_requires_keys_witness :
  __init__ config_plain = Ok (object no_type (PBool false)) ∧
  __init__ (PDict ∅) = Raise (KeyError (PStr "chain_config")).
Proof.
  split.
  - destruct (@init_requires_keys Demo.framework
                {[ "chain_config" := PDict ∅;
                   "cache_config" := PDict {[ "cache" := PBool false ]} ]})
      as (_ & _ & _ & Hpresent).
    apply (Hpresent (PDict ∅) {[ "cache" := PBool false ]} (PBool false) tt true);
      reflexivity.
  - destruct (@init_requires_keys Demo.framework ∅) as (Hmissing & _).
    apply Hmissing. reflexivity.
Defined.

(** C8 at the prompt [Q: {q}]. *)
Lemma create_prompt_pure_witness :
  create_prompt prompt_q (object no_type (PBool false)) =
    {| result := Ok template_q;
       after := object no_type (PBool false);
       log := [EvPromptTemplate (PStr "Q: {q}") (PList [PStr "q"])] |}.
Proof.
  destruct (@create_prompt_pure Demo.framework prompt_q
              (object no_type (PBool false))) as (_ & _ & Hbuilt).
  apply (Hbuilt {[ "content" := PStr "Q: {q}";
                   "input_variables" := PList [PStr "q"] ]});
    reflexivity.
Defined.

(** The wrapping error at an object whose cacher does not work. *)
Lemma create_chain_wrap_error_witness :
  result (create_chain model_a prompt_q (object_broken_cacher no_type (PBool true))) =
    Raise (OtherError "RuntimeError" "cache unavailable") ∧
  llm_model (after (create_chain model_a prompt_q
                      (object_broken_cacher no_type (PBool true)))) =
    Some (Model model_a).
Proof.
  destruct (@create_chain_wrap_error Demo.framework model_a prompt_q
              (object_broken_cacher no_type (PBool true)) (Model model_a)
              (OtherError "RuntimeError" "cache unavailable")
              eq_refl eq_refl eq_refl eq_refl) as [Hrun _].
  rewrite Hrun. split; reflexivity.
Defined.

(** The formatting error at a chain whose prompt has no string template. *)
Lemma execute_format_error_witness :
  execute chain_bad (PStr "2+2") (object no_type (PBool true)) =
    {| result := Raise (TypeError "template must be a string");
       after := object no_type (PBool true);
       log := [EvFormat (PNone, PList []) [("text", PStr "2+2")]] |}.
Proof.
  apply (@execute_format_error Demo.framework chain_bad (PStr "2+2")
           (object no_type (PBool true))
           (TypeError "template must be a string"));
    reflexivity.
Defined.

(** The object built from the plain configuration. *)
Lemma init_object_witness :
  llm_model (object no_type (PBool false)) = None ∧
  chain_factory (object no_type (PBool false)) = factory_table.
Proof.
  apply (@init_object Demo.framework config_plain). reflexivity.
Defined.

(** ** The further properties at concrete inputs *)

(** A provider that rejects the first configuration and accepts the
    second. *)
Lemma create_chain_provider_error_witness :
  create_chain model_none prompt_q (object no_type (PBool false)) =
    {| result := Raise (KeyError (PStr "model"));
       after := object no_type (PBool false);
       log := [EvGetModel model_none (Raise (KeyError (PStr "model")))] |} ∧
  llm_model (after (create_chain model_b prompt_q
                      (after (create_chain model_none prompt_q
                                (object no_type (PBool false)))))) =
    Some (Model model_b).
Proof.
  destruct (@create_chain_provider_error Demo.framework model_none prompt_q
              (object no_type (PBool false)) (KeyError (PStr "model"))
              eq_refl eq_refl) as [Hfail Hretry].
  split; [exact Hfail|].
  apply (Hretry model_b prompt_q (Model model_b) (Model model_b) eq_refl).
  left. split; reflexivity.
Defined.

(** A chain configuration that is [None]. *)
Lemma create_chain_config_not_mapping_witness :
  ∃ msg,
    create_chain model_a prompt_q (object PNone (PBool false)) =
      {| result := Raise (TypeError msg);
         after := with_llm_model (object PNone (PBool false)) (Model model_a);
         log := [EvGetModel model_a (Ok (Model model_a))] |}.
Proof.
  destruct (@create_chain_config_not_mapping Demo.framework model_a prompt_q
              (object PNone (PBool false)) ltac:(discriminate))
    as (_ & _ & Hrun).
  destruct (Hrun eq_refl) as [msg Hmsg].
  exists msg. rewrite Hmsg. reflexivity.
Defined.

(** A prompt specification with no key at all, and one that is a list. *)
Lemma create_prompt_invalid_witness :
  result (create_prompt prompt_empty (object no_type (PBool false))) =
    Raise (KeyError (PStr "content")) ∧
  ∃ msg, result (create_prompt (PList []) (object no_type (PBool false))) =
           Raise (TypeError msg).
Proof.
  split.
  - destruct (@create_prompt_invalid Demo.framework prompt_empty
                (object no_type (PBool false))) as (Hcontent & _ & _).
    rewrite (Hcontent ∅ eq_refl eq_refl). reflexivity.
  - destruct (@create_prompt_invalid Demo.framework (PList [])
                (object no_type (PBool false))) as (_ & _ & Hother).
    destruct (Hother ltac:(discriminate)) as [msg Hmsg].
    exists msg. rewrite Hmsg. reflexivity.
Defined.

(** The empty prompt specification inside [create_chain]. *)
Lemma create_chain_prompt_error_witness :
  create_chain model_a prompt_empty (object no_type (PBool false)) =
    {| result := Raise (KeyError (PStr "content"));
       after := with_llm_model (object no_type (PBool false)) (Model model_a);
       log := [EvGetModel model_a (Ok (Model model_a))] |}.
Proof.
  destruct (@create_chain_prompt_error Demo.framework model_a prompt_empty
              (object no_type (PBool false)) (PStr "default") LLMChain
              (KeyError (PStr "content")) eq_refl eq_refl eq_refl eq_refl)
    as (Hrun & _ & _).
  rewrite Hrun. reflexivity.
Defined.

(** The chain returned for the prompt [Q: {q}] with [chain_type] set
    to [math]. *)
Lemma create_chain_returns_witness :
  ∃ v c h pt,
    result (read_chain_type (object math_type (PBool true))) = Ok v ∧
    table_getitem (chain_factory (object math_type (PBool true))) v = Ok c ∧
    result (create_prompt prompt_q (object math_type (PBool true))) = Ok pt ∧
    llm_model (after (create_chain model_a prompt_q (object math_type (PBool true)))) =
      Some h ∧
    instantiate c (Some h) pt =
      Ok {| cls := LLMMathChain; llm := Cached (Model model_a); prompt := template_q |} ∧
    log (create_chain model_a prompt_q (object math_type (PBool true))) =
      log (load_llm_model model_a (object math_type (PBool true))) ++
      log (create_prompt prompt_q (object math_type (PBool true))) ++
      [EvInstantiate c (Some h) pt].
Proof.
  apply (@create_chain_returns Demo.framework model_a prompt_q
           (object math_type (PBool true))
           {| cls := LLMMathChain; llm := Cached (Model model_a);
              prompt := template_q |}).
  reflexivity.
Defined.

(** A model that does not answer, and a cache that cannot be flushed. *)
Lemma execute_cached_late_errors_witness :
  execute (F := Faulty.framework) Faulty.chain_model_down (PStr "2+2")
    (Faulty.object (PBool true) true) =
    {| result := Raise (OtherError "RuntimeError" "model unavailable");
       after := Faulty.object (PBool true) true;
       log := [@EvFormat Faulty.framework tt [("text", PStr "2+2")];
               @EvLLMCall Faulty.framework false (PList [PStr "2+2"]) true] |} ∧
  execute (F := Faulty.framework) Faulty.chain_model_up (PStr "2+2")
    (Faulty.object (PBool true) false) =
    {| result := Raise (OtherError "OSError" "cache not writable");
       after := Faulty.object (PBool true) false;
       log := [@EvFormat Faulty.framework tt [("text", PStr "2+2")];
               @EvLLMCall Faulty.framework true (PList [PStr "2+2"]) false;
               @EvFlush Faulty.framework false] |}.
Proof.
  split.
  - destruct (@execute_cached_late_errors Faulty.framework
                Faulty.chain_model_down (PStr "2+2")
                (Faulty.object (PBool true) true) (PList [PStr "2+2"])
                (OtherError "RuntimeError" "model unavailable")
                eq_refl eq_refl) as [Hmodel _].
    exact (Hmodel eq_refl).
  - destruct (@execute_cached_late_errors Faulty.framework
                Faulty.chain_model_up (PStr "2+2")
                (Faulty.object (PBool true) false) (PList [PStr "2+2"])
                (OtherError "OSError" "cache not writable")
                eq_refl eq_refl) as [_ Hflush].
    exact (Hflush (PList [PStr "2+2"]) eq_refl eq_refl).
Defined.

(** A chain that raises, a chain that answers under another key, and
    a chain that answers with a string. *)
Lemma execute_uncached_errors_witness :
  result (execute (F := Faulty.framework) Faulty.chain_raises (PStr "2+2")
            (Faulty.object (PBool false) true)) =
    Raise (OtherError "ValueError" "bad input") ∧
  result (execute (F := Faulty.framework) Faulty.chain_answer_key (PStr "2+2")
            (Faulty.object (PBool false) true)) =
    Raise (KeyError (PStr "text")) ∧
  ∃ msg, result (execute (F := Faulty.framework) Faulty.chain_plain (PStr "2+2")
                   (Faulty.object (PBool false) true)) =
           Raise (TypeError msg).
Proof.
  split; [|split].
  - destruct (@execute_uncached_errors Faulty.framework Faulty.chain_raises
                (PStr "2+2") (Faulty.object (PBool false) true) eq_refl)
      as (Hraise & _ & _).
    rewrite (Hraise _ eq_refl). reflexivity.
  - destruct (@execute_uncached_errors Faulty.framework Faulty.chain_answer_key
                (PStr "2+2") (Faulty.object (PBool false) true) eq_refl)
      as (_ & Hkey & _).
    rewrite (Hkey {[ "answer" := PStr "4" ]} eq_refl eq_refl). reflexivity.
  - destruct (@execute_uncached_errors Faulty.framework Faulty.chain_plain
                (PStr "2+2") (Faulty.object (PBool false) true) eq_refl)
      as (_ & _ & Hplain).
    destruct (Hplain (PStr "4") eq_refl ltac:(discriminate)) as [msg Hmsg].
    exists msg. rewrite Hmsg. reflexivity.
Defined.

(** Two objects with different chain configurations and model fields. *)
Lemma execute_reads_cache_only_witness :
  result (execute chain_q (PStr "2+2") (object no_type (PBool false))) =
  result (execute chain_q (PStr "2+2")
            (with_llm_model (object sql_type PNone) (Model model_b))) ∧
  log (execute chain_q (PStr "2+2") (object no_type (PBool false))) =
  log (execute chain_q (PStr "2+2")
         (with_llm_model (object sql_type PNone) (Model model_b))).
Proof.
  apply (@execute_reads_cache_only Demo.framework chain_q (PStr "2+2")
           (object no_type (PBool false))
           (with_llm_model (object sql_type PNone) (Model model_b))).
  - reflexivity.
  - discriminate.
Defined.

(** The mixed session on an object without caching. *)
Lemma session_cache_off_witness :
  List.filter touches_cache
    (snd (run_session session_mixed (object no_type (PBool false)))) = [] ∧
  flushes (snd (run_session session_mixed (object no_type (PBool false)))) = 0.
Proof.
  apply (@session_cache_off Demo.framework session_mixed
           (object no_type (PBool false))).
  reflexivity.
Defined.

(** The mixed session on an object with caching. *)
Lemma session_cache_on_witness :
  List.filter is_chain_call
    (snd (run_session session_mixed (object no_type (PBool true)))) = [].
Proof.
  apply (@session_cache_on Demo.framework session_mixed
           (object no_type (PBool true))).
  reflexivity.
Defined.

(** The mixed session on the object built from the plain configuration. *)
Lemma session_from_init_witness :
  chain_factory (fst (run_session session_mixed (object no_type (PBool false)))) =
    factory_table ∧
  getitem config_plain "chain_config" =
    Ok (chain_config (fst (run_session session_mixed (object no_type (PBool false))))) ∧
  (llm_model (fst (run_session session_mixed (object no_type (PBool false)))) = None ∧
     built (snd (run_session session_mixed (object no_type (PBool false)))) = 0 ∨
   is_Some (llm_model (fst (run_session session_mixed (object no_type (PBool false))))) ∧
     built (snd (run_session session_mixed (object no_type (PBool false)))) = 1).
Proof.
  apply (@session_from_init Demo.framework config_plain
           (object no_type (PBool false)) session_mixed).
  reflexivity.
Defined.

(** The mixed session, caching on: what is called, in order. *)
Example scenario_mixed_session :
  snd (run_session session_mixed (object no_type (PBool true))) =
    [EvGetModel model_a (Ok (Model model_a));
     EvCacheLLM (Model model_a);
     EvPromptTemplate (PStr "Q: {q}") (PList [PStr "q"]);
     EvInstantiate LLMChain (Some (Cached (Model model_a))) template_q;
     EvFormat template_q [("text", PStr "2+2")];
     EvLLMCall (Cached (Model model_a)) (PList [PStr "Q: {q}"; PStr "2+2"]) tt;
     EvFlush tt;
     EvPromptTemplate (PStr "Q: {q}") (PList [PStr "q"]);
     EvInstantiate LLMChain (Some (Cached (Model model_a))) template_q;
     EvPromptTemplate (PStr "Q: {q}") (PList [PStr "q"]);
     EvFormat template_q [("text", PStr "3+3")];
     EvLLMCall (Cached (Model model_a)) (PList [PStr "Q: {q}"; PStr "3+3"]) tt;
     EvFlush tt].
Proof. vm_compute. reflexivity. Qed.
